(** * HealthStoreBackend: pricing, cart, order creation and payment
    reconciliation

  A shallow embedding of [src/utils/delivery.js], [src/routes/cart.js],
  [src/routes/orders.js] and [routes/paystack.js] (the third module in
  [src/routes/orders.js]), followed by the properties of the
  specification that were checked against it.

  Modelling conventions
  - JavaScript strings are modelled by [string], read as sequences of
    code points below U+0100; [toLowerCase] and [trim] are the
    JavaScript functions restricted to that range.
  - JavaScript numbers that carry money are modelled by exact rationals
    [Q]; [Math.round] is rounding to the nearest integer with ties going
    up.  Counts (quantities, stock) are integers [Z].  Binary floating
    point and exact arithmetic give the same kobo on the carts of
    [Exact.in_range], except that on an exact half-kobo tie floating
    point may land on either neighbour; the properties of the order
    totals are stated on that range and do not fix the side of a tie.
  - The Supabase tables are finite maps; a handler is a function from the
    database to the new database and the HTTP response.  The statements
    that insert or update an order, upsert a cart line, clear a cart or
    decrement stock are also appended to a journal, so that "how many
    times was the cart cleared" is a property of the state.
  - The payment gateway, the HMAC primitive and [JSON.parse] are
    parameters of the development. *)

From Stdlib Require Import ZArith QArith Qround Lia List Bool Ascii String.
From Stdlib Require Import DecimalString DecimalN Lqa.
From stdpp Require Import base option gmap strings list fin_maps.

Local Open Scope string_scope.

(* ===================================================================== *)
(** ** JavaScript string primitives *)
(* ===================================================================== *)

Module JsString.

(** [String.prototype.toLowerCase] on one character: the letters A-Z and
    the accented capitals U+00C0-U+00DE (U+00D7, the multiplication sign,
    excepted) move 32 places up. *)
Definition lowerChar (c : ascii) : ascii :=
  let n := nat_of_ascii c in
  if ((65 <=? n)%nat && (n <=? 90)%nat)
     || ((192 <=? n)%nat && (n <=? 222)%nat && negb (n =? 215)%nat)
  then ascii_of_nat (n + 32) else c.

Fixpoint toLowerCase (s : string) : string :=
  match s with
  | EmptyString => EmptyString
  | String c s' => String (lowerChar c) (toLowerCase s')
  end.

(** White space and line terminators recognised by [trim] below U+0100:
    TAB, LF, VT, FF, CR, SPACE and the no-break space U+00A0. *)
Definition isWhitespace (c : ascii) : bool :=
  let n := nat_of_ascii c in
  ((9 <=? n)%nat && (n <=? 13)%nat) || (n =? 32)%nat || (n =? 160)%nat.

Fixpoint trimStart (s : string) : string :=
  match s with
  | EmptyString => EmptyString
  | String c s' => if isWhitespace c then trimStart s' else s
  end.

Fixpoint trimEnd (s : string) : string :=
  match s with
  | EmptyString => EmptyString
  | String c s' =>
      match trimEnd s' with
      | EmptyString => if isWhitespace c then EmptyString else String c EmptyString
      | t => String c t
      end
  end.

Definition trim (s : string) : string := trimEnd (trimStart s).

(** [Array.prototype.includes] on an array of strings. *)
Definition includes (l : list string) (x : string) : bool :=
  existsb (String.eqb x) l.

(** Truthiness of a string: only the empty string is falsy. *)
Definition truthy (s : string) : bool :=
  match s with EmptyString => false | _ => true end.

(** A request field that may be absent: [undefined] reads as the empty
    (falsy) string. *)
Definition get (o : option string) : string := default EmptyString o.

(** Strings made of white space only. *)
Fixpoint allWhitespace (s : string) : bool :=
  match s with
  | EmptyString => true
  | String c s' => isWhitespace c && allWhitespace s'
  end.

(** Does the character [c] occur in [s]? *)
Fixpoint occurs (c : ascii) (s : string) : bool :=
  match s with
  | EmptyString => false
  | String x s' => Ascii.eqb x c || occurs c s'
  end.

Definition startsClean (s : string) : bool :=
  match s with
  | EmptyString => false
  | String c _ => negb (isWhitespace c)
  end.

Fixpoint endsClean (s : string) : bool :=
  match s with
  | EmptyString => false
  | String c EmptyString => negb (isWhitespace c)
  | String _ s' => endsClean s'
  end.

End JsString.

(* ===================================================================== *)
(** ** src/utils/delivery.js *)
(* ===================================================================== *)

Module Delivery.
Import JsString.

Definition nearbyStates : list string :=
  ["ogun"; "oyo"; "osun"; "ondo"; "ekiti"; "edo"].

(** [calculateDeliveryFee(state)]. *)
Definition calculateDeliveryFee (state : string) : Z :=
  if negb (truthy state) then 9000%Z
  else
    let normalizedState := trim (toLowerCase state) in
    if String.eqb normalizedState "lagos" then 10000%Z
    else if includes nearbyStates normalizedState then 23000%Z
    else 27000%Z.

Definition nigerianStates : list string :=
  [ "abia"; "adamawa"; "akwa ibom"; "anambra"; "bauchi"; "bayelsa";
    "benue"; "borno"; "cross river"; "delta"; "ebonyi"; "edo";
    "ekiti"; "enugu"; "gombe"; "imo"; "jigawa"; "kaduna";
    "kano"; "katsina"; "kebbi"; "kogi"; "kwara"; "lagos";
    "nasarawa"; "niger"; "ogun"; "ondo"; "osun"; "oyo";
    "plateau"; "rivers"; "sokoto"; "taraba"; "yobe"; "zamfara";
    "fct"; "abuja" ].

(** [validateNigerianState(state)]: lower-cases, does not trim. *)
Definition validateNigerianState (state : string) : bool :=
  includes nigerianStates (toLowerCase state).

(** An order line as built by order creation:
    [{product_id, product_name, quantity, price}]. *)
Record Item := mkItem {
  product_id : string;
  product_name : string;
  quantity : Z;
  price : Q
}.

(** A row of the [discounts] table: percentage and last day of validity
    (days since the epoch). *)
Record Discount := mkDiscount {
  code : string;
  percentage : Q;
  valid_until : Z
}.

Record Totals := mkTotals {
  subtotal : Q;
  deliveryFee : Q;
  discountAmount : Q;
  total : Q
}.

(** [Math.round]: nearest integer, ties towards positive infinity. *)
Definition Math_round (x : Q) : Z := Qfloor (x + (1 # 2))%Q.

(** [Math.round(x * 100) / 100], on exact rationals.  The source computes
    on binary floating point; the two give the same kobo unless [x * 100]
    is within floating-point error of a half, see [Exact.in_range]. *)
Definition round2 (x : Q) : Q := (inject_Z (Math_round (x * 100)) / 100)%Q.

(** [items.reduce((total, item) => total + item.price * item.quantity, 0)]. *)
Definition rawSubtotal (items : list Item) : Q :=
  fold_left (fun acc item => (acc + price item * inject_Z (quantity item))%Q)
            items 0%Q.

(** Truthiness of a number: zero is falsy. *)
Definition truthyQ (x : Q) : bool := negb (Qeq_bool x 0).

(** [calculateOrderTotals(items, state, discount = null)], on exact
    rationals: the sums and products of the source are taken without
    floating-point error. *)
Definition calculateOrderTotals
    (items : list Item) (state : string) (discount : option Discount) : Totals :=
  let subtotal := rawSubtotal items in
  let deliveryFee := inject_Z (calculateDeliveryFee state) in
  let discountAmount :=
    match discount with
    | Some d =>
        if truthyQ (percentage d)
        then (subtotal * percentage d / 100)%Q
        else 0%Q
    | None => 0%Q
    end in
  let total := (subtotal + deliveryFee - discountAmount)%Q in
  {| subtotal := round2 subtotal;
     deliveryFee := deliveryFee;
     discountAmount := round2 discountAmount;
     total := round2 total |}.

(** A discount is expired on day [today] when its last day of validity
    has passed. *)
Definition expired (today : Z) (d : Discount) : bool :=
  (valid_until d <? today)%Z.

End Delivery.

(* ===================================================================== *)
(** ** The Supabase tables *)
(* ===================================================================== *)

Module Db.

Inductive PaymentStatus := PsPending | PsSuccess | PsFailed.

Inductive OrderStatus :=
  OsPending | OsPaymentFailed | OsProcessing | OsShipped | OsDelivered | OsCancelled.

#[global] Instance PaymentStatus_eq_dec : EqDecision PaymentStatus.
Proof. solve_decision. Defined.

#[global] Instance OrderStatus_eq_dec : EqDecision OrderStatus.
Proof. solve_decision. Defined.

(** A row of [products] (the columns the handlers read). *)
Record Product := mkProduct {
  name : string;
  price : Q;
  stock : Z
}.

(** A row of [orders]. *)
Record Order := mkOrder {
  user_id : string;
  order_items : list Delivery.Item;
  subtotal : Q;
  delivery_fee : Q;
  discount_code : option string;
  total : Q;
  state : string;
  city : string;
  address : string;
  phone : option string;
  payment_status : PaymentStatus;
  order_status : OrderStatus;
  payment_reference : option string
}.

(** The mutating statements sent to the database. *)
Inductive Write :=
| InsertOrder (id : string)
| UpdateOrder (id : string)
| UpsertCart (uid pid : string) (quantity : Z)
| DeleteCart (uid : string)
| DecrementStock (pid : string) (quantity : Z).

#[global] Instance Write_eq_dec : EqDecision Write.
Proof. solve_decision. Defined.

(** [products] keyed by id, [cart] keyed by its unique pair
    (user_id, product_id), [orders] keyed by id, and the journal of
    statements issued so far (oldest first). *)
Record t := mk {
  products : gmap string Product;
  cart : gmap (string * string) Z;
  orders : gmap string Order;
  journal : list Write
}.

Definition log (w : Write) (db : t) : t :=
  {| products := products db; cart := cart db; orders := orders db;
     journal := journal db ++ [w] |}.

(** [from('orders').insert([row])] with the id the database generates. *)
Definition insert_order (id : string) (o : Order) (db : t) : t :=
  log (InsertOrder id)
    {| products := products db; cart := cart db;
       orders := <[id := o]> (orders db); journal := journal db |}.

(** [from('orders').update(fields).eq('id', id)]. *)
Definition update_order (id : string) (f : Order -> Order) (db : t) : t :=
  log (UpdateOrder id)
    {| products := products db; cart := cart db;
       orders := alter f id (orders db); journal := journal db |}.

(** [from('cart').upsert({user_id, product_id, quantity},
    {onConflict: 'user_id,product_id'})]. *)
Definition upsert_cart (uid pid : string) (quantity : Z) (db : t) : t :=
  log (UpsertCart uid pid quantity)
    {| products := products db;
       cart := <[(uid, pid) := quantity]> (cart db);
       orders := orders db; journal := journal db |}.

(** [from('cart').delete().eq('user_id', uid)]. *)
Definition delete_cart (uid : string) (db : t) : t :=
  log (DeleteCart uid)
    {| products := products db;
       cart := filter (fun kv : (string * string) * Z => kv.1.1 <> uid) (cart db);
       orders := orders db; journal := journal db |}.

(** Modelled from the spec: the stored procedure [decrement_stock] called
    through [rpc] is not part of the sources; the specification says it
    decrements the product's stock by the line quantity (and that stock
    may go negative). *)
Definition decrement_stock (pid : string) (quantity : Z) (db : t) : t :=
  log (DecrementStock pid quantity)
    {| products :=
         alter (fun p => {| name := name p; price := price p;
                            stock := (stock p - quantity)%Z |}) pid (products db);
       cart := cart db; orders := orders db; journal := journal db |}.

(** Rows of the caller's cart, as [(product_id, quantity)]. *)
Definition cart_of (uid : string) (db : t) : list (string * Z) :=
  (fun kv : (string * string) * Z => (kv.1.2, kv.2)) <$>
    map_to_list (filter (fun kv : (string * string) * Z => kv.1.1 = uid) (cart db)).

(** [.single()]: exactly one row, otherwise an error. *)
Definition single {A} (rows : list A) : option A :=
  match rows with
  | [x] => Some x
  | _ => None
  end.

(** [from('orders').select('*').eq('payment_reference', reference)
    .eq('user_id', uid).single()]. *)
Definition order_by_reference (reference uid : string) (db : t)
  : option (string * Order) :=
  single (map_to_list
    (filter (fun kv : string * Order =>
               payment_reference kv.2 = Some reference /\ user_id kv.2 = uid)
            (orders db))).

(** [from('orders').select('*').eq('id', id).eq('user_id', uid).single()]. *)
Definition order_of_user (id uid : string) (db : t) : option Order :=
  match orders db !! id with
  | Some o => if decide (user_id o = uid) then Some o else None
  | None => None
  end.

(** Number of [DeleteCart uid] statements in a journal. *)
Definition cart_clears (uid : string) (j : list Write) : nat :=
  length (List.filter (fun w => bool_decide (w = DeleteCart uid)) j).

(** Number of stock decrements issued for a product. *)
Definition stock_decrements (pid : string) (j : list Write) : nat :=
  length (List.filter (fun w => match w with
                                | DecrementStock p _ => bool_decide (p = pid)
                                | _ => false
                                end) j).

End Db.

(** HTTP responses of the handlers. *)
Module Http.

(** What the gateway returns from [transaction/initialize]. *)
Record PaystackData := mkPaystackData {
  authorization_url : string;
  access_code : string;
  reference : string
}.

Inductive Response :=
| Error (status : nat) (error : string)
| ErrorWithOrder (status : nat) (error : string) (order_id : string)
| Created (order_id : string) (order : Db.Order) (payment : PaystackData)
| PaymentInitialized (payment : PaystackData)
| CartItem (message : string) (uid pid : string) (quantity : Z)
| Received
| Processed (message : string) (order_id : string)
| Verified (message : string) (order_id : string) (already_processed : bool).

Definition status_of (r : Response) : nat :=
  match r with
  | Error s _ | ErrorWithOrder s _ _ => s
  | Created _ _ _ => 201
  | _ => 200
  end.

End Http.

(* ===================================================================== *)
(** ** src/routes/cart.js *)
(* ===================================================================== *)

Module Cart.
Import JsString Http.

(** [POST /add] for the authenticated user [uid] with body
    [{product_id, quantity = 1}]. *)
Definition add (uid : string) (product_id : option string) (quantity : option Z)
    (db : Db.t) : Db.t * Response :=
  let quantity := default 1%Z quantity in
  let product_id := get product_id in
  if negb (truthy product_id) then (db, Error 400 "Product ID is required")
  else
    match Db.products db !! product_id with
    | None => (db, Error 404 "Product not found")
    | Some product =>
        if (Db.stock product <? quantity)%Z
        then (db, Error 400 "Insufficient stock")
        else (Db.upsert_cart uid product_id quantity db,
              CartItem "Product added to cart" uid product_id quantity)
    end.

End Cart.

(* ===================================================================== *)
(** ** src/routes/orders.js: order creation and payment retry *)
(* ===================================================================== *)

Module Orders.
Import JsString Http.

Record CreateBody := mkCreateBody {
  state : option string;
  city : option string;
  address : option string;
  phone : option string;
  discount_code : option string;
  email : option string
}.

(** The body posted to [transaction/initialize]. *)
Record InitRequest := mkInitRequest {
  init_email : string;
  init_amount : Z;
  init_reference : string;
  init_order_id : string;
  init_user_id : string
}.

(** The gateway: [None] is a rejected, failed or timed-out call. *)
Definition Gateway := InitRequest -> option PaystackData.

(** [`order_${order.id}_${Date.now()}`]. *)
Definition mkReference (order_id : string) (now : N) : string :=
  "order_" ++ order_id ++ "_" ++ NilEmpty.string_of_uint (N.to_uint now).

Inductive Prepared :=
| Items (orderItems : list Delivery.Item)
| InsufficientStock (product_name : string)
| Thrown.

(** The stock-check loop over the joined cart rows; a row whose product
    is gone makes [item.products.stock] throw. *)
Fixpoint prepareOrderItems (products : gmap string Db.Product)
    (cartItems : list (string * Z)) (orderItems : list Delivery.Item) : Prepared :=
  match cartItems with
  | [] => Items orderItems
  | (pid, quantity) :: rest =>
      match products !! pid with
      | None => Thrown
      | Some p =>
          if (Db.stock p <? quantity)%Z then InsufficientStock (Db.name p)
          else prepareOrderItems products rest
                 (orderItems ++ [Delivery.mkItem pid (Db.name p) quantity (Db.price p)])
      end
  end.

(** [x || null]. *)
Definition orNull (o : option string) : option string :=
  if truthy (get o) then o else None.

Definition set_reference (r : string) (o : Db.Order) : Db.Order :=
  {| Db.user_id := Db.user_id o; Db.order_items := Db.order_items o;
     Db.subtotal := Db.subtotal o; Db.delivery_fee := Db.delivery_fee o;
     Db.discount_code := Db.discount_code o; Db.total := Db.total o;
     Db.state := Db.state o; Db.city := Db.city o; Db.address := Db.address o;
     Db.phone := Db.phone o; Db.payment_status := Db.payment_status o;
     Db.order_status := Db.order_status o;
     Db.payment_reference := Some r |}.

Definition set_order_status (s : Db.OrderStatus) (o : Db.Order) : Db.Order :=
  {| Db.user_id := Db.user_id o; Db.order_items := Db.order_items o;
     Db.subtotal := Db.subtotal o; Db.delivery_fee := Db.delivery_fee o;
     Db.discount_code := Db.discount_code o; Db.total := Db.total o;
     Db.state := Db.state o; Db.city := Db.city o; Db.address := Db.address o;
     Db.phone := Db.phone o; Db.payment_status := Db.payment_status o;
     Db.order_status := s;
     Db.payment_reference := Db.payment_reference o |}.

(** The row inserted by [POST /create]. *)
Definition newOrder (uid : string) (body : CreateBody)
    (orderItems : list Delivery.Item) (totals : Delivery.Totals) : Db.Order :=
  {| Db.user_id := uid; Db.order_items := orderItems;
     Db.subtotal := Delivery.subtotal totals;
     Db.delivery_fee := Delivery.deliveryFee totals;
     Db.discount_code := orNull (discount_code body);
     Db.total := Delivery.total totals;
     Db.state := get (state body); Db.city := get (city body);
     Db.address := get (address body); Db.phone := orNull (phone body);
     Db.payment_status := Db.PsPending; Db.order_status := Db.OsPending;
     Db.payment_reference := None |}.

(** The request sent to the gateway for order [id] at clock reading [now]. *)
Definition initRequest (email_ : string) (id : string) (order : Db.Order)
    (uid : string) (now : N) : InitRequest :=
  {| init_email := email_;
     init_amount := Delivery.Math_round (Db.total order * 100);
     init_reference := mkReference id now;
     init_order_id := id;
     init_user_id := uid |}.

(** [POST /create].  [new_id] is the id the database gives the inserted
    row and [now] the reading of [Date.now()].  The confirmation e-mail is
    sent inside its own [try]/[catch] and changes nothing here. *)
Definition create (gateway : Gateway) (new_id : string) (now : N)
    (uid : string) (body : CreateBody) (db : Db.t) : Db.t * Response :=
  if negb (truthy (get (state body))) || negb (truthy (get (city body)))
     || negb (truthy (get (address body)))
  then (db, Error 400 "Missing required fields: state, city, and address are required")
  else if negb (truthy (get (email body)))
  then (db, Error 400 "Email is required for payment processing")
  else if negb (Delivery.validateNigerianState (get (state body)))
  then (db, Error 400 "Invalid Nigerian state")
  else
    match Db.cart_of uid db with
    | [] => (db, Error 400 "Cart is empty")
    | cartItems =>
        match prepareOrderItems (Db.products db) cartItems [] with
        | Thrown => (db, Error 500 "Failed to create order")
        | InsufficientStock n => (db, Error 400 ("Insufficient stock for " ++ n))
        | Items orderItems =>
            let totals :=
              Delivery.calculateOrderTotals orderItems (get (state body)) None in
            let order := newOrder uid body orderItems totals in
            match Db.orders db !! new_id with
            | Some _ => (db, Error 500 "Failed to create order")
            | None =>
                let db1 := Db.insert_order new_id order db in
                match gateway (initRequest (get (email body)) new_id order uid now) with
                | Some paystackData =>
                    (Db.update_order new_id (set_reference (reference paystackData)) db1,
                     Created new_id (set_reference (reference paystackData) order)
                             paystackData)
                | None =>
                    (Db.update_order new_id (set_order_status Db.OsPaymentFailed) db1,
                     ErrorWithOrder 500
                       "Order created but payment initialization failed" new_id)
                end
            end
        end
    end.

(** [POST /:id/retry-payment]. *)
Definition retry_payment (gateway : Gateway) (now : N)
    (uid : string) (id : string) (email_ : option string) (db : Db.t)
    : Db.t * Response :=
  if negb (truthy (get email_)) then (db, Error 400 "Email is required")
  else
    match Db.order_of_user id uid db with
    | None => (db, Error 404 "Order not found")
    | Some order =>
        if decide (Db.payment_status order = Db.PsSuccess)
        then (db, Error 400 "Order already paid")
        else
          match gateway (initRequest (get email_) id order uid now) with
          | None => (db, Error 500 "Failed to initialize payment")
          | Some paystackData =>
              (Db.update_order id (set_reference (reference paystackData)) db,
               PaymentInitialized paystackData)
          end
    end.

End Orders.

(* ===================================================================== *)
(** ** routes/paystack.js: webhook and manual verification *)
(* ===================================================================== *)

Module Paystack.
Import JsString Http.

Record Metadata := mkMetadata {
  order_id : option string;
  user_id : option string
}.

Record EventData := mkEventData {
  reference : option string;
  status : string;
  amount : Q;
  metadata : option Metadata
}.

(** The gateway event [{event, data: {reference, status, amount, metadata}}]. *)
Record Event := mkEvent {
  event : string;
  data : EventData
}.

(** The same event with another [amount]. *)
Definition with_amount (a : Q) (e : Event) : Event :=
  {| event := event e;
     data := {| reference := reference (data e); status := status (data e);
                amount := a; metadata := metadata (data e) |} |}.

(** [metadata?.order_id], [metadata?.user_id]. *)
Definition meta_order_id (e : Event) : string :=
  match metadata (data e) with Some m => get (order_id m) | None => EmptyString end.

Definition meta_user_id (e : Event) : string :=
  match metadata (data e) with Some m => get (user_id m) | None => EmptyString end.

(** The fields written by an [update]; an [undefined] reference is left
    out of the statement and keeps the stored one. *)
Definition set_payment (ps : Db.PaymentStatus) (os : Db.OrderStatus)
    (r : option string) (o : Db.Order) : Db.Order :=
  {| Db.user_id := Db.user_id o; Db.order_items := Db.order_items o;
     Db.subtotal := Db.subtotal o; Db.delivery_fee := Db.delivery_fee o;
     Db.discount_code := Db.discount_code o; Db.total := Db.total o;
     Db.state := Db.state o; Db.city := Db.city o; Db.address := Db.address o;
     Db.phone := Db.phone o; Db.payment_status := ps; Db.order_status := os;
     Db.payment_reference :=
       match r with Some _ => r | None => Db.payment_reference o end |}.

(** The loop [for (const item of order.order_items) rpc('decrement_stock')];
    a failing call is logged and the loop goes on. *)
Definition decrementAll (items : list Delivery.Item) (db : Db.t) : Db.t :=
  fold_left (fun db item =>
               Db.decrement_stock (Delivery.product_id item) (Delivery.quantity item) db)
            items db.

(** Units of product [pid] on an order: the sum of the quantities of its
    lines for that product. *)
Definition ordered_quantity (pid : string) (items : list Delivery.Item) : Z :=
  fold_right (fun item acc =>
                if String.eqb (Delivery.product_id item) pid
                then (Delivery.quantity item + acc)%Z else acc)
             0%Z items.

(** The statement issued for one order line. *)
Definition decrement_of (item : Delivery.Item) : Db.Write :=
  Db.DecrementStock (Delivery.product_id item) (Delivery.quantity item).

(** A product row with [n] units taken off its stock. *)
Definition take (n : Z) (p : Db.Product) : Db.Product :=
  {| Db.name := Db.name p; Db.price := Db.price p; Db.stock := (Db.stock p - n)%Z |}.

(** The [charge.failed] branch and the final [{received: true}]. *)
Definition chargeFailed (e : Event) (db : Db.t) : Db.t * Response :=
  if String.eqb (event e) "charge.failed" && truthy (meta_order_id e)
  then (Db.update_order (meta_order_id e)
          (set_payment Db.PsFailed Db.OsCancelled (reference (data e))) db,
        Received)
  else (db, Received).

(** The handler body after [JSON.parse]. *)
Definition handleEvent (e : Event) (db : Db.t) : Db.t * Response :=
  if String.eqb (event e) "charge.success"
     && truthy (meta_order_id e) && truthy (meta_user_id e)
  then
    match Db.orders db !! meta_order_id e with
    | None => (db, Error 404 "Order not found")
    | Some order =>
        let db1 := Db.update_order (meta_order_id e)
                     (set_payment Db.PsSuccess Db.OsProcessing (reference (data e))) db in
        let db2 := Db.delete_cart (meta_user_id e) db1 in
        let db3 := decrementAll (Db.order_items order) db2 in
        (db3, Processed "Payment processed successfully" (meta_order_id e))
    end
  else chargeFailed e db.

(** What [transaction/verify] gives back: the transaction data, an HTTP
    error carrying a response body, or no response at all. *)
Inductive VerifyResult :=
| VerifyData (status : string) (gateway_response : string)
| VerifyRejected
| VerifyUnreachable.

(** [POST /verify] for the authenticated user [uid]. *)
Definition verify (gateway_verify : string -> VerifyResult)
    (uid : string) (reference_ : option string) (db : Db.t) : Db.t * Response :=
  if negb (truthy (get reference_))
  then (db, Error 400 "Payment reference is required")
  else
    match gateway_verify (get reference_) with
    | VerifyRejected => (db, Error 400 "Payment verification failed")
    | VerifyUnreachable => (db, Error 500 "Failed to verify payment")
    | VerifyData st _ =>
        if String.eqb st "success" then
          match Db.order_by_reference (get reference_) uid db with
          | None => (db, Error 404 "Order not found")
          | Some (id, order) =>
              if decide (Db.payment_status order = Db.PsSuccess)
              then (db, Verified "Payment already verified" id true)
              else
                let db1 := Db.update_order id
                             (set_payment Db.PsSuccess Db.OsProcessing None) db in
                let db2 := Db.delete_cart uid db1 in
                (db2, Verified "Payment verified successfully" id false)
          end
        else (db, Error 400 "Payment verification failed")
    end.

Section Webhook.

(** [crypto.createHmac('sha512', secret).update(body).digest('hex')]. *)
Variable hmac_sha512_hex : string -> string -> string.

(** [JSON.parse]; [None] when it throws. *)
Variable JSON_parse : string -> option Event.

(** [POST /webhook] with the raw body and the [x-paystack-signature]
    header. *)
Definition webhook (secret : string) (body : string) (signature : option string)
    (db : Db.t) : Db.t * Response :=
  let hash := hmac_sha512_hex secret body in
  if negb (bool_decide (Some hash = signature))
  then (db, Error 401 "Invalid signature")
  else
    match JSON_parse body with
    | None => (db, Error 500 "Webhook processing failed")
    | Some e => handleEvent e db
    end.

End Webhook.

End Paystack.

(* ===================================================================== *)
(** ** A small shop used in the worked examples *)
(* ===================================================================== *)

Module Sample.
Import Http.

Definition vitamin : Db.Product := Db.mkProduct "Vitamin C" 5000 10.

Definition line : Delivery.Item := Delivery.mkItem "p1" "Vitamin C" 2 5000.

Definition ref1 : string := "order_o1_1700000000000".

(** A pending order of user [u1] for two units of [p1]. *)
Definition order1 : Db.Order :=
  {| Db.user_id := "u1"; Db.order_items := [line];
     Db.subtotal := 10000; Db.delivery_fee := 10000;
     Db.discount_code := None; Db.total := 20000;
     Db.state := "lagos"; Db.city := "Ikeja"; Db.address := "1 Allen Avenue";
     Db.phone := None; Db.payment_status := Db.PsPending;
     Db.order_status := Db.OsPending;
     Db.payment_reference := Some ref1 |}.

(** Ten units in stock, the order above, and the cart it was made from. *)
Definition shop : Db.t :=
  {| Db.products := {[ "p1" := vitamin ]};
     Db.cart := {[ ("u1", "p1") := 2%Z ]};
     Db.orders := {[ "o1" := order1 ]};
     Db.journal := [] |}.

(** The same shop before checkout. *)
Definition shop_before_checkout : Db.t :=
  {| Db.products := {[ "p1" := vitamin ]};
     Db.cart := {[ ("u1", "p1") := 2%Z ]};
     Db.orders := ∅;
     Db.journal := [] |}.

Definition success_event (a : Q) : Paystack.Event :=
  {| Paystack.event := "charge.success";
     Paystack.data :=
       {| Paystack.reference := Some ref1; Paystack.status := "success";
          Paystack.amount := a;
          Paystack.metadata := Some (Paystack.mkMetadata (Some "o1") (Some "u1")) |} |}.

(** Stand-ins for the digest and the JSON reader: the digest of a body is
    the secret followed by the body, and the two bodies below read as the
    success event with the amount they name. *)
Definition digest (secret body : string) : string := secret ++ "/" ++ body.

Definition parse (body : string) : option Paystack.Event :=
  if String.eqb body "success o1 u1 2000000" then Some (success_event 2000000)
  else if String.eqb body "success o1 u1 100" then Some (success_event 100)
  else None.

(** The signed delivery of the success event for order [o1]. *)
Definition deliver (db : Db.t) : Db.t * Response :=
  Paystack.webhook digest parse "sk" "success o1 u1 2000000"
                   (Some (digest "sk" "success o1 u1 2000000")) db.

Definition gateway_ok (st : string) : Paystack.VerifyResult :=
  Paystack.VerifyData "success" "Approved".

Definition gateway_down : Orders.Gateway := fun _ => None.

Definition gateway_up : Orders.Gateway :=
  fun r => Some (mkPaystackData "https://checkout.paystack.com/abc" "abc"
                                (Orders.init_reference r)).

(** A cart whose one-percent discount is exactly half a kobo off a whole
    kobo: 12.50 at 1% is 0.125.  All the amounts involved are dyadic, so
    binary floating point computes them without error. *)
Definition sachet : Delivery.Item := Delivery.mkItem "p2" "Zinc sachet" 1 (25 # 2).


(** A ten-percent code whose last day of validity is day 19000. *)
Definition lapsed : Delivery.Discount := Delivery.mkDiscount "OLD10" 10 19000.

(** Manual verification of the reference of order [o1] by its owner. *)
Definition check (db : Db.t) : Db.t * Response :=
  Paystack.verify gateway_ok "u1" (Some ref1) db.

Definition body1 : Orders.CreateBody :=
  Orders.mkCreateBody (Some "lagos") (Some "Ikeja") (Some "1 Allen Avenue")
                      None None (Some "ada@example.com").

End Sample.

(* ===================================================================== *)
(** ** Predicates used in the statements *)
(* ===================================================================== *)

Module Invariants.

(** An order line is the snapshot of a cart row: same product and quantity,
    the product's name and price, and a quantity within the stock. *)
Definition snapshot_of (products : gmap string Db.Product)
    (row : string * Z) (item : Delivery.Item) : Prop :=
  Delivery.product_id item = row.1
  /\ Delivery.quantity item = row.2
  /\ exists p, products !! row.1 = Some p
               /\ Delivery.product_name item = Db.name p
               /\ Delivery.price item = Db.price p
               /\ (row.2 <= Db.stock p)%Z.

(** A price that is a whole number of kobo. *)
Definition whole_kobo (x : Q) : Prop := exists z : Z, (x == inject_Z z / 100)%Q.

End Invariants.

(* ===================================================================== *)
(** ** The range of carts on which the amounts are exact *)
(* ===================================================================== *)

Module Exact.
Import Delivery.


(** The discount before rounding, as the specification words it:
    subtotal times percentage over 100 when a discount is supplied. *)
Definition exactDiscount (items : list Item) (discount : option Discount) : Q :=
  match discount with
  | Some d => (rawSubtotal items * percentage d / 100)%Q
  | None => 0%Q
  end.

(** An amount that lies exactly half a kobo between two kobo amounts. *)
Definition half_kobo (x : Q) : Prop :=
  exists z : Z, (x * 100 == inject_Z z + (1 # 2))%Q.

(** The carts a DECIMAL(10,2) order can hold: at most twenty lines, prices
    that are whole numbers of kobo and not negative, quantities that are
    not negative, a subtotal below 100 000 000, and a discount percentage,
    if any, with two decimals between 0 and 100.  On these the rounding
    errors of binary floating point stay below a ten-thousandth of a kobo,
    which is the least distance of such an amount from a half-kobo tie. *)
Definition in_range (items : list Item) (discount : option Discount) : Prop :=
  (length items <= 20)%nat
  /\ Forall (fun item => Invariants.whole_kobo (price item)
                         /\ (0 <= price item)%Q /\ (0 <= quantity item)%Z) items
  /\ (rawSubtotal items < 100000000)%Q
  /\ match discount with
     | Some d => Invariants.whole_kobo (percentage d)
                 /\ (0 <= percentage d)%Q /\ (percentage d <= 100)%Q
     | None => True
     end.

End Exact.

(* ===================================================================== *)
(** ** src/routes/cart.js: the routes on single lines, clear and read *)
(* ===================================================================== *)

Module CartLines.
Import JsString.

Inductive Reply :=
| Message (message : string)
| Item (message : string) (uid pid : string) (quantity : Z)
| Failure (status : nat) (error : string).

(** The primary key of [cart] is not part of [Db.t].  A request that names
    a row by its id is given here with the row the id names, as the pair
    (user_id, product_id) that is unique to it; [None] when no row has the
    id.  The statements on a single row are not among [Db.Write] and leave
    the journal as it is. *)
Definition Line := option (string * string).

(** The row a line names, when it is in the table. *)
Definition resolve (line : Line) (db : Db.t) : option ((string * string) * Z) :=
  match line with
  | Some k => match Db.cart db !! k with
              | Some q => Some (k, q)
              | None => None
              end
  | None => None
  end.

Definition with_cart (cart : gmap (string * string) Z) (db : Db.t) : Db.t :=
  {| Db.products := Db.products db; Db.cart := cart;
     Db.orders := Db.orders db; Db.journal := Db.journal db |}.

(** [from('cart').delete().eq('id', id).eq('user_id', uid)]. *)
Definition delete_line (uid : string) (line : Line) (db : Db.t) : Db.t :=
  match resolve line db with
  | Some ((owner, pid), _) =>
      if decide (owner = uid)
      then with_cart (delete (owner, pid) (Db.cart db)) db
      else db
  | None => db
  end.

(** [PUT /update/:id] with body [{quantity}].  The stock is read through
    the row whoever owns it; the update itself is restricted to the
    caller's rows, and [.single()] fails when it matched none. *)
Definition update (uid : string) (line : Line) (quantity : Z) (db : Db.t)
  : Db.t * Reply :=
  if (quantity <? 0)%Z then (db, Failure 400 "Quantity cannot be negative")
  else if (quantity =? 0)%Z
  then (delete_line uid line db, Message "Item removed from cart")
  else
    match resolve line db with
    | None => (db, Failure 500 "Failed to update cart")
    | Some ((owner, pid), _) =>
        match Db.products db !! pid with
        | None => (db, Failure 500 "Failed to update cart")
        | Some product =>
            if (Db.stock product <? quantity)%Z
            then (db, Failure 400 "Insufficient stock")
            else if decide (owner = uid)
            then (with_cart (<[(owner, pid) := quantity]> (Db.cart db)) db,
                  Item "Cart updated" owner pid quantity)
            else (db, Failure 500 "Failed to update cart")
        end
    end.

(** [DELETE /remove/:id]. *)
Definition remove (uid : string) (line : Line) (db : Db.t) : Db.t * Reply :=
  (delete_line uid line db, Message "Item removed from cart").

(** [DELETE /clear]. *)
Definition clear (uid : string) (db : Db.t) : Db.t * Reply :=
  (Db.delete_cart uid db, Message "Cart cleared").

(** [GET /]: the caller's lines, each joined with its product. *)
Definition read (uid : string) (db : Db.t) : list (string * Z * option Db.Product) :=
  (fun row : string * Z => (row.1, row.2, Db.products db !! row.1))
    <$> Db.cart_of uid db.

End CartLines.

(* ===================================================================== *)
(** ** routes/paystack.js and src/routes/orders.js: the read-only routes *)
(* ===================================================================== *)

Module OrderQueries.

(** The answer of [GET /status/:reference] (the creation date, which the
    order rows here do not carry, left out). *)
Record StatusView := mkStatusView {
  order_id : string;
  payment_status : Db.PaymentStatus;
  order_status : Db.OrderStatus;
  is_paid : bool;
  total : Q
}.

(** [GET /status/:reference] for the authenticated user [uid]; [None] is
    the 404 answer. *)
Definition status (uid reference : string) (db : Db.t) : option StatusView :=
  match Db.order_by_reference reference uid db with
  | Some (id, order) =>
      Some {| order_id := id;
              payment_status := Db.payment_status order;
              order_status := Db.order_status order;
              is_paid := bool_decide (Db.payment_status order = Db.PsSuccess);
              total := Db.total order |}
  | None => None
  end.

(** [GET /:id] for the authenticated user [uid]; [None] is the 404
    answer. *)
Definition get_order (uid id : string) (db : Db.t) : option Db.Order :=
  Db.order_of_user id uid db.

End OrderQueries.

(* ===================================================================== *)
(** ** The admin routes on orders (src/unnamed/part_005) and
       src/middleware/admin.js *)
(* ===================================================================== *)

Module Admin.
Import JsString.

(** [req.user] as the token middleware leaves it. *)
Record User := mkUser {
  id : string;
  is_admin : bool
}.

Inductive Reply :=
| StatusUpdated (order_id : string) (order : Db.Order)
| Failure (status : nat) (error : string).

(** [requireAdmin]: the next handler runs only for an admin. *)
Definition requireAdmin {A} (user : option User) (denied next : A) : A :=
  match user with
  | Some u => if is_admin u then next else denied
  | None => denied
  end.

Definition validStatuses : list string :=
  ["pending"; "shipped"; "delivered"; "cancelled"].

(** The text of the [order_status] column as a status. *)
Definition status_of_text (s : string) : option Db.OrderStatus :=
  if String.eqb s "pending" then Some Db.OsPending
  else if String.eqb s "payment_failed" then Some Db.OsPaymentFailed
  else if String.eqb s "processing" then Some Db.OsProcessing
  else if String.eqb s "shipped" then Some Db.OsShipped
  else if String.eqb s "delivered" then Some Db.OsDelivered
  else if String.eqb s "cancelled" then Some Db.OsCancelled
  else None.

(** [PUT /orders/:id/status] with body [{order_status}].  The update is
    sent whether or not the row exists; [.single()] fails when it does
    not. *)
Definition set_status (user : option User) (id : string) (order_status : string)
    (db : Db.t) : Db.t * Reply :=
  requireAdmin user (db, Failure 403 "Admin access required")
    (if negb (includes validStatuses order_status)
     then (db, Failure 400 "Invalid order status")
     else
       match status_of_text order_status with
       | None => (db, Failure 400 "Invalid order status")
       | Some s =>
           let db' := Db.update_order id (Orders.set_order_status s) db in
           match Db.orders db' !! id with
           | Some order => (db', StatusUpdated id order)
           | None => (db', Failure 500 "Failed to update order status")
           end
       end).

(** The rows of [orders] as the dashboard reads them. *)
Definition all_orders (db : Db.t) : list Db.Order := (map_to_list (Db.orders db)).*2.

(** [orders.filter(paid).reduce((sum, order) => sum + parseFloat(order.total), 0)]. *)
Definition totalRevenue (orders : list Db.Order) : Q :=
  fold_left (fun sum order => (sum + Db.total order)%Q)
            (List.filter (fun order => bool_decide (Db.payment_status order = Db.PsSuccess))
                         orders)
            0%Q.

(** [orders.filter(order => order.payment_status === 'pending').length]. *)
Definition pendingOrders (orders : list Db.Order) : nat :=
  length (List.filter (fun order => bool_decide (Db.payment_status order = Db.PsPending))
                      orders).

Record Stats := mkStats {
  stat_totalOrders : nat;
  stat_totalRevenue : Q;
  stat_totalProducts : nat;
  stat_pendingOrders : nat
}.

(** [GET /dashboard] (the count of users, a table not modelled, left
    out). *)
Definition dashboard (user : option User) (db : Db.t) : option Stats :=
  requireAdmin user None
    (Some {| stat_totalOrders := length (all_orders db);
             stat_totalRevenue := totalRevenue (all_orders db);
             stat_totalProducts := size (Db.products db);
             stat_pendingOrders := pendingOrders (all_orders db) |}).


End Admin.

(* ===================================================================== *)
(** ** The page window of the order lists
       (src/routes/orders.js GET /, src/unnamed/part_005 GET /orders) *)
(* ===================================================================== *)

Module Pagination.

(** A query parameter: absent, or, when present, a string, taken here to
    be a string of decimal digits. *)
Definition Param := option Decimal.uint.

(** A string of digits read as a number. *)
Definition toNumber (d : Decimal.uint) : Z := Z.of_N (N.of_uint d).

(** [z + d] where [z] is a number and [d] a string: the decimal text of
    [z] followed by [d], read back as a number by the subtraction that
    follows.  (Exact as long as the numbers stay below 2^53.) *)
Definition concat (z : Z) (d : Decimal.uint) : Z :=
  if (0 <=? z)%Z
  then Z.of_N (N.of_uint (Decimal.app (N.to_uint (Z.to_N z)) d))
  else (- Z.of_N (N.of_uint (Decimal.app (N.to_uint (Z.to_N (- z))) d)))%Z.

(** [const { page = 1, limit = defaultLimit } = req.query;
    const from = (page - 1) * limit; const to = from + limit - 1;]
    and the window [(from, to)] passed to [.range]. *)
Definition range (defaultLimit : Z) (page limit : Param) : Z * Z :=
  let pageNum := match page with Some d => toNumber d | None => 1%Z end in
  let limitNum := match limit with Some d => toNumber d | None => defaultLimit end in
  let from := ((pageNum - 1) * limitNum)%Z in
  let to := match limit with
            | Some d => (concat from d - 1)%Z
            | None => (from + defaultLimit - 1)%Z
            end in
  (from, to).

End Pagination.

(* ===================================================================== *)
(** ** More of the small shop *)
(* ===================================================================== *)

Module Fixtures.
Import Http.

(** The shop after the webhook has settled order [o1]. *)
Definition paid_shop : Db.t := (Sample.deliver Sample.shop).1.

(** Order [o1] as the webhook leaves it. *)
Definition paid_order1 : Db.Order :=
  Paystack.set_payment Db.PsSuccess Db.OsProcessing (Some Sample.ref1) Sample.order1.

Definition failed_event : Paystack.Event :=
  {| Paystack.event := "charge.failed";
     Paystack.data :=
       {| Paystack.reference := Some Sample.ref1; Paystack.status := "failed";
          Paystack.amount := 2000000;
          Paystack.metadata :=
            Some (Paystack.mkMetadata (Some "o1") (Some "u1")) |} |}.

(** The cart of [u1] asks for eleven units of [p1]; ten are in stock. *)
Definition greedy_shop : Db.t :=
  {| Db.products := {[ "p1" := Sample.vitamin ]};
     Db.cart := {[ ("u1", "p1") := 11%Z ]};
     Db.orders := ∅;
     Db.journal := [] |}.


(** What the gateway answers for order [o9] at the clock reading used in
    the examples. *)
Definition answer9 : PaystackData :=
  mkPaystackData "https://checkout.paystack.com/abc" "abc" "order_o9_1700000000000".

(** The order a successful checkout of [u1] creates under id [o9], without
    and with a discount code in the request. *)
Definition created_order (body : Orders.CreateBody) : Db.Order :=
  Orders.set_reference "order_o9_1700000000000"
    (Orders.newOrder "u1" body [Sample.line]
       (Delivery.calculateOrderTotals [Sample.line] "lagos" None)).

Definition pending_view : OrderQueries.StatusView :=
  OrderQueries.mkStatusView "o1" Db.PsPending Db.OsPending false 20000.

Definition manager : Admin.User := Admin.mkUser "a1" true.

(** One unit at 1000.10 under a fifteen-percent code: the unrounded
    discount, 150.015, lies exactly between two kobo amounts. *)
Definition tonic : Delivery.Item := Delivery.mkItem "p3" "Tonic" 1 (100010 # 100).

Definition fifteen : Delivery.Discount := Delivery.mkDiscount "SAVE15" 15 20000.

End Fixtures.

(* ===================================================================== *)
(** * Properties *)
(* ===================================================================== *)

(** ** Strings *)

Module JsStringFacts.
Import JsString.

Lemma isWhitespace_lowerChar (c : ascii) :
  isWhitespace (lowerChar c) = isWhitespace c.
Proof. destruct c as [[] [] [] [] [] [] [] []]; reflexivity. Qed.

Lemma lowerChar_whitespace (c : ascii) :
  isWhitespace c = true -> lowerChar c = c.
Proof. destruct c as [[] [] [] [] [] [] [] []]; (reflexivity || discriminate). Qed.

Lemma toLowerCase_app (a b : string) :
  toLowerCase (a ++ b) = toLowerCase a ++ toLowerCase b.
Proof. induction a as [|c a IH]; simpl; [reflexivity | now rewrite IH]. Qed.

Lemma toLowerCase_whitespace (s : string) :
  allWhitespace s = true -> toLowerCase s = s.
Proof.
  induction s as [|c s IH]; simpl; [reflexivity|].
  intros [Hc Hs]%andb_prop. now rewrite lowerChar_whitespace, IH.
Qed.

Lemma trimStart_whitespace_app (pre s : string) :
  allWhitespace pre = true -> trimStart (pre ++ s) = trimStart s.
Proof.
  induction pre as [|c pre IH]; simpl; [reflexivity|].
  intros [Hc Hs]%andb_prop. rewrite Hc. auto.
Qed.

Lemma trimStart_clean (s : string) :
  startsClean s = true -> trimStart s = s.
Proof.
  destruct s as [|c s]; simpl; [discriminate|].
  intros H%negb_true_iff. now rewrite H.
Qed.

Lemma trimEnd_whitespace (s : string) :
  allWhitespace s = true -> trimEnd s = EmptyString.
Proof.
  induction s as [|c s IH]; simpl; [reflexivity|].
  intros [Hc Hs]%andb_prop. now rewrite (IH Hs), Hc.
Qed.

Lemma trimEnd_app_whitespace (s post : string) :
  allWhitespace post = true -> trimEnd (s ++ post) = trimEnd s.
Proof.
  intros Hp. induction s as [|c s IH]; simpl.
  - now apply trimEnd_whitespace.
  - now rewrite IH.
Qed.

Lemma trimEnd_clean (s : string) :
  endsClean s = true -> trimEnd s = s.
Proof.
  induction s as [|c s IH]; [discriminate|].
  destruct s as [|c' s].
  - simpl. intros H%negb_true_iff. now rewrite H.
  - intros H. change (endsClean (String c' s) = true) in H.
    specialize (IH H). change (trimEnd (String c (String c' s)))
      with (match trimEnd (String c' s) with
            | EmptyString => if isWhitespace c then EmptyString else String c EmptyString
            | t => String c t
            end).
    now rewrite IH.
Qed.

Lemma startsClean_app (s t : string) :
  startsClean s = true -> startsClean (s ++ t) = true.
Proof. destruct s; simpl; [discriminate | auto]. Qed.

(** Trimming removes white-space padding around a string that neither
    starts nor ends with white space. *)
Lemma trim_padded (pre s post : string) :
  allWhitespace pre = true -> allWhitespace post = true ->
  startsClean s = true -> endsClean s = true ->
  trim (pre ++ s ++ post) = s.
Proof.
  intros Hpre Hpost Hs He. unfold trim.
  rewrite trimStart_whitespace_app by assumption.
  rewrite trimStart_clean by now apply startsClean_app.
  rewrite trimEnd_app_whitespace by assumption.
  now apply trimEnd_clean.
Qed.

Lemma trim_clean (s : string) :
  startsClean s = true -> endsClean s = true -> trim s = s.
Proof.
  intros Hs He. unfold trim. rewrite trimStart_clean by assumption.
  now apply trimEnd_clean.
Qed.

Lemma includes_In (l : list string) (x : string) :
  includes l x = true <-> In x l.
Proof.
  unfold includes. rewrite existsb_exists. split.
  - intros (y & Hy & ->%String.eqb_eq). exact Hy.
  - intros H. exists x. split; [exact H | apply String.eqb_refl].
Qed.

Lemma length_app (a b : string) :
  String.length (a ++ b) = (String.length a + String.length b)%nat.
Proof. induction a as [|c a IH]; simpl; [reflexivity | now rewrite IH]. Qed.

(** A padded string equals its unpadded core only when the padding is
    empty. *)
Lemma padded_eq_inv (pre s post : string) :
  pre ++ s ++ post = s -> pre = EmptyString /\ post = EmptyString.
Proof.
  intros H. apply (f_equal String.length) in H.
  rewrite !length_app in H.
  destruct pre, post; simpl in H; (split; [reflexivity || lia | reflexivity || lia]).
Qed.

End JsStringFacts.

(** ** Delivery fee and state validation *)

Module DeliveryProps.
Import JsString JsStringFacts Delivery.

Lemma nigerianStates_clean (n : string) :
  In n nigerianStates -> startsClean n = true /\ endsClean n = true.
Proof.
  assert (H : forallb (fun n => startsClean n && endsClean n) nigerianStates = true)
    by reflexivity.
  rewrite forallb_forall in H. intros Hn. now apply andb_prop, H.
Qed.

Lemma truthy_app (a s b : string) : truthy s = true -> truthy (a ++ s ++ b) = true.
Proof. destruct a, s; simpl; (discriminate || reflexivity). Qed.

Lemma recognized_inv (r : string) :
  validateNigerianState r = true ->
  truthy r = true /\ startsClean (toLowerCase r) = true
  /\ endsClean (toLowerCase r) = true.
Proof.
  unfold validateNigerianState. intros H%includes_In.
  destruct (nigerianStates_clean _ H) as [Hs He]. repeat split; try assumption.
  destruct r; [discriminate Hs | reflexivity].
Qed.

(** Lower-casing a padded state gives the padded lower-cased state. *)
Lemma toLowerCase_padded (pre r post : string) :
  allWhitespace pre = true -> allWhitespace post = true ->
  toLowerCase (pre ++ r ++ post) = pre ++ toLowerCase r ++ post.
Proof.
  intros Hpre Hpost.
  rewrite !toLowerCase_app.
  now rewrite (toLowerCase_whitespace pre), (toLowerCase_whitespace post).
Qed.

(** Validation does not see through padding. *)
Lemma validate_padded (pre r post : string) :
  validateNigerianState r = true ->
  allWhitespace pre = true -> allWhitespace post = true ->
  pre <> EmptyString \/ post <> EmptyString ->
  validateNigerianState (pre ++ r ++ post) = false.
Proof.
  intros Hr Hpre Hpost Hpad.
  destruct (recognized_inv r Hr) as (_ & Hs & He).
  destruct (validateNigerianState (pre ++ r ++ post)) eqn:Hv; [exfalso | reflexivity].
  unfold validateNigerianState in Hv. apply includes_In in Hv.
  rewrite toLowerCase_padded in Hv by assumption.
  destruct (nigerianStates_clean _ Hv) as [Hs' He'].
  pose proof (trim_clean _ Hs' He') as Ht.
  rewrite trim_padded in Ht by assumption.
  symmetry in Ht. apply padded_eq_inv in Ht. destruct Ht as [-> ->].
  destruct Hpad as [H | H]; now apply H.
Qed.

(** The fee computation does see through padding. *)
Lemma fee_padded (pre r post : string) :
  validateNigerianState r = true ->
  allWhitespace pre = true -> allWhitespace post = true ->
  calculateDeliveryFee (pre ++ r ++ post) = calculateDeliveryFee r.
Proof.
  intros Hr Hpre Hpost.
  destruct (recognized_inv r Hr) as (Ht & Hs & He).
  unfold calculateDeliveryFee.
  rewrite (truthy_app pre r post Ht), Ht. simpl negb. cbv iota.
  rewrite toLowerCase_padded by assumption.
  rewrite trim_padded by assumption.
  now rewrite trim_clean by assumption.
Qed.

(** Claim C5, amended: the fee is a total lookup on the lower-cased,
    trimmed state.  An empty state gets 9000, which is none of the other
    fees; "lagos" gets 10000; the six nearby states get 23000; every other
    non-empty string, recognised as a state or not, gets 27000. *)
Theorem calculateDeliveryFee_tiers (state : string) :
  let normalizedState := trim (toLowerCase state) in
  (calculateDeliveryFee state = 9000%Z <-> state = EmptyString)
  /\ (calculateDeliveryFee state = 10000%Z <->
      state <> EmptyString /\ normalizedState = "lagos")
  /\ (calculateDeliveryFee state = 23000%Z <->
      state <> EmptyString /\ In normalizedState nearbyStates)
  /\ (calculateDeliveryFee state = 27000%Z <->
      state <> EmptyString /\ normalizedState <> "lagos"
      /\ ~ In normalizedState nearbyStates).
Proof.
  intros n. unfold calculateDeliveryFee. fold n.
  assert (Hl : ~ In "lagos" nearbyStates).
  { intros H%includes_In. discriminate H. }
  destruct state as [|c s] eqn:Hstate.
  - simpl. intuition (congruence || discriminate).
  - rewrite <- Hstate. replace (truthy state) with true by now subst.
    simpl negb. cbv iota.
    assert (Hne : state <> EmptyString) by now subst.
    clearbody n. clear Hstate c s.
    destruct (String.eqb n "lagos") eqn:E1.
    { apply String.eqb_eq in E1. subst n.
      intuition (congruence || discriminate). }
    apply String.eqb_neq in E1.
    destruct (includes nearbyStates n) eqn:E2.
    { apply includes_In in E2. intuition (congruence || discriminate). }
    assert (E3 : ~ In n nearbyStates).
    { intros H%includes_In. congruence. }
    intuition (congruence || discriminate).
Qed.

(** Claim C5 as stated fails: "unknown-state" is not a state of the list,
    yet its fee is the fee of the recognised far state "kano". *)
Lemma unrecognized_state_gets_far_fee :
  validateNigerianState (trim (toLowerCase "unknown-state")) = false
  /\ validateNigerianState "kano" = true
  /\ calculateDeliveryFee "unknown-state" = 27000%Z
  /\ calculateDeliveryFee "kano" = 27000%Z.
Proof. repeat split; reflexivity. Qed.

End DeliveryProps.

(** ** Order totals *)

Module PricingProps.
Import Delivery.
Local Open Scope Q_scope.

Lemma inject_Z_lt_inv (x y : Z) : inject_Z x < inject_Z y -> (x < y)%Z.
Proof. unfold Qlt. simpl. lia. Qed.


Lemma Math_round_bounds (x : Q) :
  inject_Z (Math_round x) <= x + (1 # 2) /\ x + (1 # 2) < inject_Z (Math_round x) + 1.
Proof.
  unfold Math_round. split.
  - apply Qfloor_le.
  - pose proof (Qlt_floor (x + (1 # 2))) as H.
    now rewrite inject_Z_plus in H.
Qed.

(** The nearest integer is determined by its bounds. *)
Lemma Math_round_unique (x : Q) (z : Z) :
  inject_Z z <= x + (1 # 2) -> x + (1 # 2) < inject_Z z + 1 -> Math_round x = z.
Proof.
  intros Hlo Hhi. destruct (Math_round_bounds x) as [Blo Bhi].
  assert (H1 : inject_Z z < inject_Z (Math_round x + 1)).
  { rewrite inject_Z_plus. change (inject_Z 1) with 1. lra. }
  assert (H2 : inject_Z (Math_round x) < inject_Z (z + 1)).
  { rewrite inject_Z_plus. change (inject_Z 1) with 1. lra. }
  apply inject_Z_lt_inv in H1, H2. lia.
Qed.

#[global] Instance Math_round_comp : Proper (Qeq ==> eq) Math_round.
Proof. intros x y E. unfold Math_round. now rewrite E. Qed.

#[global] Instance round2_comp : Proper (Qeq ==> Qeq) round2.
Proof. intros x y E. unfold round2. now rewrite E. Qed.

(** Rounding commutes with adding an integer. *)
Lemma Math_round_add_Z (x : Q) (k : Z) :
  Math_round (x + inject_Z k) = (Math_round x + k)%Z.
Proof.
  destruct (Math_round_bounds x) as [Blo Bhi].
  apply Math_round_unique; rewrite inject_Z_plus; lra.
Qed.

Lemma round2_zero : round2 0 == 0.
Proof. reflexivity. Qed.

(** Adding a whole amount of naira passes through [round2]. *)
Lemma round2_add_Z (x : Q) (k : Z) :
  round2 (x + inject_Z k) == round2 x + inject_Z k.
Proof.
  unfold round2.
  assert (E : (x + inject_Z k) * 100 == x * 100 + inject_Z (k * 100)).
  { rewrite inject_Z_mult. change (inject_Z 100) with 100. ring. }
  rewrite E, Math_round_add_Z, inject_Z_plus, inject_Z_mult.
  change (inject_Z 100) with 100. field.
Qed.



(** Claim C6 as stated fails: on day 20000 the code OLD10, valid until day
    19000, still takes 1000 off a subtotal of 10000. *)
Lemma expired_discount_still_applied :
  expired 20000 Sample.lapsed = true
  /\ discountAmount
       (calculateOrderTotals [Sample.line] "lagos" (Some Sample.lapsed)) == 1000
  /\ ~ discountAmount
       (calculateOrderTotals [Sample.line] "lagos" (Some Sample.lapsed)) == 0.
Proof. repeat split. intros H. vm_compute in H. discriminate H. Qed.

End PricingProps.

(** ** Cart *)

Module CartProps.
Import JsString Http.

(** Claim C10: adding a product that is already in the cart stores the new
    quantity in place of the old one, whatever the old one was, and the
    stock check compares the stock with the new quantity only. *)
Theorem add_replaces_quantity
    (uid pid : string) (q : option Z) (db : Db.t) (p : Db.Product) (q0 : Z) :
  truthy pid = true ->
  Db.products db !! pid = Some p ->
  Db.cart db !! (uid, pid) = Some q0 ->
  let quantity := default 1%Z q in
  let r := Cart.add uid (Some pid) q db in
  ((Db.stock p < quantity)%Z -> r = (db, Error 400 "Insufficient stock"))
  /\ ((quantity <= Db.stock p)%Z ->
      r.2 = CartItem "Product added to cart" uid pid quantity
      /\ Db.cart r.1 !! (uid, pid) = Some quantity
      /\ (forall k, k <> (uid, pid) -> Db.cart r.1 !! k = Db.cart db !! k)
      /\ Db.products r.1 = Db.products db).
Proof.
  intros Hpid Hp Hq0 quantity r. subst r. unfold Cart.add. simpl get.
  rewrite Hpid, Hp. simpl negb. cbv iota. fold quantity. split.
  - intros H. apply Z.ltb_lt in H. now rewrite H.
  - intros H. apply Z.ltb_ge in H. rewrite H. simpl. repeat split.
    + apply lookup_insert_eq.
    + intros k Hk. now apply lookup_insert_ne.
Qed.

(** Two units of [p1] are in the cart of [u1] and ten are in stock: adding
    nine is accepted (2 + 9 would exceed the stock) and leaves nine. *)
Lemma add_replaces_quantity_witness :
  Db.cart (Cart.add "u1" (Some "p1") (Some 9%Z) Sample.shop).1 !! ("u1", "p1")
  = Some 9%Z.
Proof.
  refine (proj1 (proj2 (proj2 (add_replaces_quantity "u1" "p1" (Some 9%Z)
            Sample.shop Sample.vitamin 2 _ _ _) _))).
  - reflexivity.
  - vm_compute. reflexivity.
  - vm_compute. reflexivity.
  - vm_compute. discriminate.
Defined.

End CartProps.

(** ** Webhook and manual verification *)

Module ReconciliationProps.
Import JsString Http Paystack.

Lemma decrementAll_orders (items : list Delivery.Item) (db : Db.t) :
  Db.orders (decrementAll items db) = Db.orders db.
Proof.
  unfold decrementAll. revert db.
  induction items as [|i items IH]; intros db; simpl; [reflexivity|].
  now rewrite IH.
Qed.

Lemma decrementAll_cart (items : list Delivery.Item) (db : Db.t) :
  Db.cart (decrementAll items db) = Db.cart db.
Proof.
  unfold decrementAll. revert db.
  induction items as [|i items IH]; intros db; simpl; [reflexivity|].
  now rewrite IH.
Qed.

Lemma decrementAll_journal (items : list Delivery.Item) (db : Db.t) :
  Db.journal (decrementAll items db) = (Db.journal db ++ map decrement_of items)%list.
Proof.
  unfold decrementAll. revert db.
  induction items as [|i items IH]; intros db; simpl.
  - now rewrite app_nil_r.
  - rewrite IH. simpl. now rewrite <- app_assoc.
Qed.

(** Every line takes its quantity off the stock of its product. *)
Lemma decrementAll_products (items : list Delivery.Item) (db : Db.t) (pid : string) :
  Db.products (decrementAll items db) !! pid
  = take (ordered_quantity pid items) <$> (Db.products db !! pid).
Proof.
  unfold decrementAll. revert db.
  induction items as [|i items IH]; intros db; simpl.
  - destruct (Db.products db !! pid) as [[n p s]|]; simpl; [|reflexivity].
    unfold take. simpl. now rewrite Z.sub_0_r.
  - rewrite IH. simpl.
    destruct (String.eqb_spec (Delivery.product_id i) pid) as [->|Hne].
    + rewrite lookup_alter_eq.
      destruct (Db.products db !! pid) as [[n p s]|]; simpl; [|reflexivity].
      unfold take. simpl. do 2 f_equal. lia.
    + now rewrite lookup_alter_ne.
Qed.

(** The success branch of the webhook, spelled out.  The stored
    [payment_status] of the order is not consulted. *)
Lemma handleEvent_success (e : Event) (db : Db.t) (oid uid : string) (o : Db.Order) :
  event e = "charge.success" ->
  metadata (data e) = Some (mkMetadata (Some oid) (Some uid)) ->
  truthy oid = true -> truthy uid = true ->
  Db.orders db !! oid = Some o ->
  handleEvent e db =
    (decrementAll (Db.order_items o)
       (Db.delete_cart uid
          (Db.update_order oid
             (set_payment Db.PsSuccess Db.OsProcessing (reference (data e))) db)),
     Processed "Payment processed successfully" oid).
Proof.
  intros He Hm Ho Hu Hl. unfold handleEvent, meta_order_id, meta_user_id.
  rewrite He, Hm. simpl. rewrite Ho, Hu, Hl. reflexivity.
Qed.

Lemma webhook_signed hmac parse secret body e db :
  parse body = Some e ->
  webhook hmac parse secret body (Some (hmac secret body)) db = handleEvent e db.
Proof.
  intros Hp. unfold webhook. rewrite bool_decide_eq_true_2 by reflexivity.
  simpl. now rewrite Hp.
Qed.

Lemma delete_cart_lookup (uid pid : string) (db : Db.t) :
  Db.cart (Db.delete_cart uid db) !! (uid, pid) = None.
Proof.
  unfold Db.delete_cart. simpl. apply map_lookup_filter_None. right.
  intros q _ H. now apply H.
Qed.

(** Manual verification never writes to [products]. *)
Lemma verify_keeps_products gateway_verify uid reference_ db :
  Db.products (verify gateway_verify uid reference_ db).1 = Db.products db.
Proof.
  unfold verify.
  destruct (negb (truthy (get reference_))); [reflexivity|].
  destruct (gateway_verify (get reference_)) as [st g| |]; try reflexivity.
  destruct (String.eqb st "success"); [|reflexivity].
  destruct (Db.order_by_reference (get reference_) uid db) as [[id o]|]; [|reflexivity].
  destruct (decide (Db.payment_status o = Db.PsSuccess)); reflexivity.
Qed.

(** Manual verification of an order that is already paid changes
    nothing. *)
Lemma verify_already_processed gateway_verify uid reference_ db id o :
  Db.order_by_reference (get reference_) uid db = Some (id, o) ->
  Db.payment_status o = Db.PsSuccess ->
  (verify gateway_verify uid reference_ db).1 = db.
Proof.
  intros Hl Hs. unfold verify.
  destruct (negb (truthy (get reference_))); [reflexivity|].
  destruct (gateway_verify (get reference_)) as [st g| |]; try reflexivity.
  destruct (String.eqb st "success"); [|reflexivity].
  rewrite Hl. now rewrite decide_True by assumption.
Qed.

(** Claim C3: a webhook whose signature header is not the digest of the
    raw body is answered 401 "Invalid signature" and leaves the database,
    journal included, as it was, whatever the body says. *)
Theorem webhook_rejects_bad_signature
    (hmac : string -> string -> string) (parse : string -> option Event)
    (secret body : string) (signature : option string) (db : Db.t) :
  signature <> Some (hmac secret body) ->
  webhook hmac parse secret body signature db = (db, Error 401 "Invalid signature")
  /\ status_of (webhook hmac parse secret body signature db).2 = 401%nat.
Proof.
  intros H. unfold webhook.
  rewrite bool_decide_eq_false_2 by congruence. split; reflexivity.
Qed.

(** A body naming the valid order [o1], sent with a signature made for
    something else. *)
Lemma webhook_rejects_bad_signature_witness :
  webhook Sample.digest Sample.parse "sk" "success o1 u1 100"
          (Some "sk/success o1 u1 2000000") Sample.shop
  = (Sample.shop, Error 401 "Invalid signature").
Proof.
  refine (proj1 (webhook_rejects_bad_signature Sample.digest Sample.parse "sk"
            "success o1 u1 100" (Some "sk/success o1 u1 2000000") Sample.shop _)).
  vm_compute. discriminate.
Defined.

(** Claim C8: two validly signed [charge.success] events for the same
    order and user that differ only in [amount] have the same effect and
    the same answer: the order becomes success/processing, the user's cart
    is emptied and every line's quantity is taken off the stock, whether
    or not the amount matches the order's total. *)
Theorem webhook_ignores_amount
    (hmac : string -> string -> string) (parse : string -> option Event)
    (secret body1 body2 : string) (e : Event) (a1 a2 : Q)
    (db : Db.t) (oid uid : string) (o : Db.Order) :
  parse body1 = Some (with_amount a1 e) ->
  parse body2 = Some (with_amount a2 e) ->
  event e = "charge.success" ->
  metadata (data e) = Some (mkMetadata (Some oid) (Some uid)) ->
  truthy oid = true -> truthy uid = true ->
  Db.orders db !! oid = Some o ->
  let r1 := webhook hmac parse secret body1 (Some (hmac secret body1)) db in
  let r2 := webhook hmac parse secret body2 (Some (hmac secret body2)) db in
  r1 = r2
  /\ r1.2 = Processed "Payment processed successfully" oid
  /\ Db.orders r1.1 !! oid
     = Some (set_payment Db.PsSuccess Db.OsProcessing (reference (data e)) o)
  /\ (forall pid, Db.cart r1.1 !! (uid, pid) = None)
  /\ (forall pid, Db.products r1.1 !! pid
                  = take (ordered_quantity pid (Db.order_items o))
                      <$> (Db.products db !! pid)).
Proof.
  intros Hp1 Hp2 He Hm Ho Hu Hl r1 r2. subst r1 r2.
  rewrite (webhook_signed _ _ _ _ _ _ Hp1), (webhook_signed _ _ _ _ _ _ Hp2).
  rewrite (handleEvent_success (with_amount a1 e) db oid uid o) by assumption.
  rewrite (handleEvent_success (with_amount a2 e) db oid uid o) by assumption.
  simpl. repeat split.
  - rewrite decrementAll_orders. simpl. now rewrite lookup_alter_eq, Hl.
  - intros pid. rewrite decrementAll_cart. apply delete_cart_lookup.
  - intros pid. now rewrite decrementAll_products.
Qed.

(** Order [o1] totals 20000 naira, that is 2000000 kobo; an event paying
    100 kobo settles it all the same. *)
Lemma webhook_ignores_amount_witness :
  webhook Sample.digest Sample.parse "sk" "success o1 u1 2000000"
          (Some "sk/success o1 u1 2000000") Sample.shop
  = webhook Sample.digest Sample.parse "sk" "success o1 u1 100"
            (Some "sk/success o1 u1 100") Sample.shop.
Proof.
  refine (proj1 (webhook_ignores_amount Sample.digest Sample.parse "sk"
            "success o1 u1 2000000" "success o1 u1 100" (Sample.success_event 0)
            2000000 100 Sample.shop "o1" "u1" Sample.order1 _ _ _ _ _ _ _));
    reflexivity.
Defined.

(** Claim C1 at a failing input.  Webhook first, verification second:
    the verification answers "already verified" and writes nothing.
    Verification first, webhook second: the webhook does not look at
    [payment_status]; it updates the order and clears the cart a second
    time (emptying a cart refilled in between) and only then decrements
    the stock.  Two deliveries of the same webhook decrement the stock
    twice. *)
Theorem webhook_repeats_success_transition :
  let w := Sample.deliver Sample.shop in
  let wv := Sample.check w.1 in
  let v := Sample.check Sample.shop in
  let vw := Sample.deliver v.1 in
  let refilled := Cart.add "u1" (Some "p1") (Some 1%Z) v.1 in
  let ww := Sample.deliver w.1 in
  (wv = (w.1, Verified "Payment already verified" "o1" true)
   /\ Db.cart_clears "u1" (Db.journal wv.1) = 1%nat
   /\ Db.stock_decrements "p1" (Db.journal wv.1) = 1%nat)
  /\ (Db.payment_status <$> Db.orders v.1 !! "o1" = Some Db.PsSuccess
      /\ vw.2 = Processed "Payment processed successfully" "o1"
      /\ Db.journal vw.1
         = [Db.UpdateOrder "o1"; Db.DeleteCart "u1";
            Db.UpdateOrder "o1"; Db.DeleteCart "u1"; Db.DecrementStock "p1" 2]
      /\ Db.cart_clears "u1" (Db.journal vw.1) = 2%nat)
  /\ (Db.cart refilled.1 !! ("u1", "p1") = Some 1%Z
      /\ Db.cart (Sample.deliver refilled.1).1 !! ("u1", "p1") = None)
  /\ (ww.2 = Processed "Payment processed successfully" "o1"
      /\ Db.stock_decrements "p1" (Db.journal ww.1) = 2%nat
      /\ Db.stock <$> Db.products ww.1 !! "p1" = Some 6%Z).
Proof. vm_compute. repeat split; reflexivity. Qed.

(** Claim C2 at a failing input.  Manual verification of the pending order
    [o1] marks it success/processing and empties the cart, but the ten
    units of [p1] stay ten and no decrement is issued; the webhook for the
    same order takes the two ordered units off. *)
Theorem verify_skips_stock_decrement :
  let v := Sample.check Sample.shop in
  let w := Sample.deliver Sample.shop in
  (v.2 = Verified "Payment verified successfully" "o1" false
   /\ Db.payment_status <$> Db.orders v.1 !! "o1" = Some Db.PsSuccess
   /\ Db.order_status <$> Db.orders v.1 !! "o1" = Some Db.OsProcessing
   /\ Db.cart v.1 !! ("u1", "p1") = None
   /\ Db.stock <$> Db.products v.1 !! "p1" = Some 10%Z
   /\ Db.stock_decrements "p1" (Db.journal v.1) = 0%nat)
  /\ (w.2 = Processed "Payment processed successfully" "o1"
      /\ Db.payment_status <$> Db.orders w.1 !! "o1" = Some Db.PsSuccess
      /\ Db.order_status <$> Db.orders w.1 !! "o1" = Some Db.OsProcessing
      /\ Db.cart w.1 !! ("u1", "p1") = None
      /\ Db.stock <$> Db.products w.1 !! "p1" = Some 8%Z
      /\ Db.stock_decrements "p1" (Db.journal w.1) = 1%nat).
Proof. vm_compute. repeat split; reflexivity. Qed.

End ReconciliationProps.


(** ** Order creation and payment retry *)

Module OrderProps.
Import JsString JsStringFacts Http Orders.

Lemma occurs_app (c : ascii) (a b : string) :
  occurs c (a ++ String c b) = true.
Proof.
  induction a as [|x a IH]; simpl.
  - now rewrite Ascii.eqb_refl.
  - rewrite IH. apply orb_true_r.
Qed.

(** A string is split in one way only at the last occurrence of a
    character. *)
Lemma split_at_last (c : ascii) (a1 a2 d1 d2 : string) :
  occurs c d1 = false -> occurs c d2 = false ->
  a1 ++ String c d1 = a2 ++ String c d2 -> a1 = a2 /\ d1 = d2.
Proof.
  intros H1 H2. revert a2.
  induction a1 as [|x a1 IH]; intros [|y a2] E; simpl in E.
  - injection E as ->. split; reflexivity.
  - injection E as <- ->. now rewrite occurs_app in H1.
  - injection E as -> <-. now rewrite occurs_app in H2.
  - injection E as -> E. destruct (IH _ E) as [-> ->]. split; reflexivity.
Qed.

Lemma decimal_no_underscore (d : Decimal.uint) :
  occurs "_" (NilEmpty.string_of_uint d) = false.
Proof. induction d; simpl; auto. Qed.

Lemma decimal_inj (m n : N) :
  NilEmpty.string_of_uint (N.to_uint m) = NilEmpty.string_of_uint (N.to_uint n) ->
  m = n.
Proof.
  intros E. apply (f_equal NilEmpty.uint_of_string) in E.
  rewrite !NilEmpty.usu in E. injection E as E.
  now apply DecimalN.Unsigned.to_uint_inj.
Qed.

(** References are unique per order and clock reading. *)
Lemma mkReference_inj (id1 id2 : string) (t1 t2 : N) :
  mkReference id1 t1 = mkReference id2 t2 -> id1 = id2 /\ t1 = t2.
Proof.
  unfold mkReference. intros E. simpl in E.
  injection E as E.
  apply split_at_last in E; try apply decimal_no_underscore.
  destruct E as [-> E]. split; [reflexivity | now apply decimal_inj].
Qed.

Lemma order_of_user_insert (id uid : string) (o : Db.Order) (db : Db.t) f :
  Db.user_id (f o) = uid ->
  Db.order_of_user id uid (Db.update_order id f (Db.insert_order id o db)) = Some (f o).
Proof.
  intros Hu. unfold Db.order_of_user. simpl.
  rewrite lookup_alter_eq, lookup_insert_eq. simpl.
  now rewrite decide_True by assumption.
Qed.

(** Claim C7: when the gateway call of order creation fails, the order
    stays in the table with [order_status = payment_failed],
    [payment_status = pending] and no reference, and the caller gets the
    failure together with the order id.  A later retry for that order
    sends the gateway the reference made from the order id and the new
    clock reading, which no other order and no other clock reading can
    produce, and stores the reference the gateway answers with. *)
Theorem create_gateway_failure_then_retry
    (gateway : Gateway) (new_id : string) (now : N) (uid : string)
    (body : CreateBody) (db : Db.t)
    (c : string * Z) (cartItems : list (string * Z))
    (orderItems : list Delivery.Item) :
  truthy (get (state body)) = true ->
  truthy (get (city body)) = true ->
  truthy (get (address body)) = true ->
  truthy (get (email body)) = true ->
  Delivery.validateNigerianState (get (state body)) = true ->
  Db.cart_of uid db = c :: cartItems ->
  prepareOrderItems (Db.products db) (c :: cartItems) [] = Items orderItems ->
  Db.orders db !! new_id = None ->
  let order := newOrder uid body orderItems
                 (Delivery.calculateOrderTotals orderItems (get (state body)) None) in
  gateway (initRequest (get (email body)) new_id order uid now) = None ->
  let failed := set_order_status Db.OsPaymentFailed order in
  let r := create gateway new_id now uid body db in
  r.2 = ErrorWithOrder 500 "Order created but payment initialization failed" new_id
  /\ Db.orders r.1 !! new_id = Some failed
  /\ Db.order_status failed = Db.OsPaymentFailed
  /\ Db.payment_status failed = Db.PsPending
  /\ Db.payment_reference failed = None
  /\ forall (gateway' : Gateway) (now' : N) (email' : string) (paystackData : PaystackData),
       truthy email' = true ->
       gateway' (initRequest email' new_id failed uid now') = Some paystackData ->
       let r' := retry_payment gateway' now' uid new_id (Some email') r.1 in
       r'.2 = PaymentInitialized paystackData
       /\ Db.orders r'.1 !! new_id
          = Some (set_reference (reference paystackData) failed)
       /\ init_reference (initRequest email' new_id failed uid now')
          = mkReference new_id now'
       /\ (forall id t, mkReference id t = mkReference new_id now' ->
                        id = new_id /\ t = now').
Proof.
  intros Hs Hc Ha He Hv Hcart Hprep Hfresh order Hgw failed r.
  assert (Er : r = (Db.update_order new_id (set_order_status Db.OsPaymentFailed)
                      (Db.insert_order new_id order db),
                    ErrorWithOrder 500
                      "Order created but payment initialization failed" new_id)).
  { subst r. unfold create. rewrite Hs, Hc, Ha, He, Hv. simpl negb. simpl orb.
    cbv iota. rewrite Hcart, Hprep, Hfresh. fold order. now rewrite Hgw. }
  rewrite Er. simpl fst. simpl snd.
  split; [reflexivity|]. split.
  { simpl. now rewrite lookup_alter_eq, lookup_insert_eq. }
  do 3 (split; [reflexivity|]).
  intros gateway' now' email' paystackData Hemail Hgw' r'.
  assert (Er' : r' = (Db.update_order new_id (set_reference (reference paystackData))
                        (Db.update_order new_id (set_order_status Db.OsPaymentFailed)
                           (Db.insert_order new_id order db)),
                      PaymentInitialized paystackData)).
  { subst r'. unfold retry_payment. simpl get. rewrite Hemail. simpl negb. cbv iota.
    rewrite order_of_user_insert by reflexivity. fold failed.
    rewrite decide_False by discriminate. now rewrite Hgw'. }
  rewrite Er'. simpl fst. simpl snd.
  split; [reflexivity|]. split.
  { simpl. now rewrite !lookup_alter_eq, lookup_insert_eq. }
  split; [reflexivity|].
  intros id t E. now apply mkReference_inj in E.
Qed.

(** User [u1] checks out a cart of two [p1] while the gateway is down, and
    retries half a second later when it is up again. *)
Lemma create_gateway_failure_then_retry_witness :
  let r := create Sample.gateway_down "o9" 1700000000000 "u1" Sample.body1
                  Sample.shop_before_checkout in
  r.2 = ErrorWithOrder 500 "Order created but payment initialization failed" "o9"
  /\ (retry_payment Sample.gateway_up 1700000000500 "u1" "o9"
                    (Some "ada@example.com") r.1).2
     = PaymentInitialized
         (mkPaystackData "https://checkout.paystack.com/abc" "abc"
                         "order_o9_1700000000500").
Proof.
  destruct (create_gateway_failure_then_retry Sample.gateway_down "o9"
              1700000000000 "u1" Sample.body1 Sample.shop_before_checkout
              ("p1", 2%Z) [] [Sample.line])
    as (Hfail & _ & _ & _ & _ & Hretry); try (vm_compute; reflexivity).
  destruct (Hretry Sample.gateway_up 1700000000500%N "ada@example.com"
              (mkPaystackData "https://checkout.paystack.com/abc" "abc"
                              "order_o9_1700000000500"))
    as (Hok & _); try (vm_compute; reflexivity).
  split; [exact Hfail | exact Hok].
Defined.

(** Claim C9: a state that is a recognised state wrapped in white space is
    rejected by order creation with "Invalid Nigerian state" and nothing is
    written, although the delivery-fee computation gives the padded string
    the fee of the state inside. *)
Theorem create_rejects_padded_state
    (gateway : Gateway) (new_id : string) (now : N) (uid : string)
    (body : CreateBody) (db : Db.t) (pre r post : string) :
  Delivery.validateNigerianState r = true ->
  allWhitespace pre = true -> allWhitespace post = true ->
  pre <> EmptyString \/ post <> EmptyString ->
  state body = Some (pre ++ r ++ post) ->
  truthy (get (city body)) = true ->
  truthy (get (address body)) = true ->
  truthy (get (email body)) = true ->
  Delivery.validateNigerianState (pre ++ r ++ post) = false
  /\ create gateway new_id now uid body db = (db, Error 400 "Invalid Nigerian state")
  /\ Delivery.calculateDeliveryFee (pre ++ r ++ post)
     = Delivery.calculateDeliveryFee r.
Proof.
  intros Hr Hpre Hpost Hpad Hs Hc Ha He.
  pose proof (DeliveryProps.validate_padded pre r post Hr Hpre Hpost Hpad) as Hv.
  destruct (DeliveryProps.recognized_inv r Hr) as (Ht & _).
  repeat split.
  - exact Hv.
  - unfold create. rewrite Hs. simpl get.
    rewrite (DeliveryProps.truthy_app pre r post Ht), Hc, Ha, He, Hv. reflexivity.
  - now apply DeliveryProps.fee_padded.
Qed.

(** The state "  lagos  " of the specification's own example. *)
Lemma create_rejects_padded_state_witness :
  create Sample.gateway_up "o9" 1700000000000 "u1"
    (mkCreateBody (Some "  lagos  ") (Some "Ikeja") (Some "1 Allen Avenue")
                  None None (Some "ada@example.com"))
    Sample.shop_before_checkout
  = (Sample.shop_before_checkout, Error 400 "Invalid Nigerian state")
  /\ Delivery.calculateDeliveryFee "  lagos  " = 10000%Z.
Proof.
  destruct (create_rejects_padded_state Sample.gateway_up "o9" 1700000000000 "u1"
              (mkCreateBody (Some "  lagos  ") (Some "Ikeja") (Some "1 Allen Avenue")
                            None None (Some "ada@example.com"))
              Sample.shop_before_checkout "  " "lagos" "  ")
    as (_ & Hcreate & Hfee); try reflexivity.
  - left. discriminate.
  - split; [exact Hcreate | exact Hfee].
Defined.

End OrderProps.


(** ** Table lookups *)

Module DbFacts.
Import JsString Http.

Lemma single_Some {A} (l : list A) (x : A) : Db.single l = Some x <-> l = [x].
Proof.
  destruct l as [|y [|z l]]; simpl; split; intros H; try discriminate; congruence.
Qed.

(** The query by reference answers with an order only when it is the one
    order of the caller that carries the reference. *)
Lemma order_by_reference_Some (reference uid id : string) (o : Db.Order) (db : Db.t) :
  Db.order_by_reference reference uid db = Some (id, o) <->
  filter (fun kv : string * Db.Order =>
            Db.payment_reference kv.2 = Some reference /\ Db.user_id kv.2 = uid)
         (Db.orders db) = {[ id := o ]}.
Proof.
  unfold Db.order_by_reference. rewrite single_Some. split.
  - intros H. apply (f_equal (list_to_map (M := gmap string Db.Order))) in H.
    rewrite list_to_map_to_list in H. rewrite H. simpl. apply insert_empty.
  - intros ->. apply map_to_list_singleton.
Qed.

Lemma order_by_reference_sound (reference uid id : string) (o : Db.Order) (db : Db.t) :
  Db.order_by_reference reference uid db = Some (id, o) ->
  Db.orders db !! id = Some o
  /\ Db.payment_reference o = Some reference /\ Db.user_id o = uid.
Proof.
  intros H%order_by_reference_Some.
  assert (L : filter (fun kv : string * Db.Order =>
                        Db.payment_reference kv.2 = Some reference
                        /\ Db.user_id kv.2 = uid) (Db.orders db) !! id = Some o).
  { rewrite H. apply lookup_singleton_eq. }
  apply map_lookup_filter_Some in L. simpl in L. tauto.
Qed.

(** An order that is the caller's only one with the reference is found. *)
Lemma order_by_reference_complete (reference uid id : string) (o : Db.Order) (db : Db.t) :
  Db.orders db !! id = Some o ->
  Db.payment_reference o = Some reference -> Db.user_id o = uid ->
  (forall id' o', Db.orders db !! id' = Some o' -> id' <> id ->
                  ~ (Db.payment_reference o' = Some reference /\ Db.user_id o' = uid)) ->
  Db.order_by_reference reference uid db = Some (id, o).
Proof.
  intros Hl Hr Hu Hothers. apply order_by_reference_Some.
  apply map_eq. intros j. apply option_eq. intros x.
  rewrite map_lookup_filter_Some, lookup_singleton_Some. simpl. split.
  - intros [Hj HP]. destruct (decide (j = id)) as [->|Hne].
    + split; congruence.
    + exfalso. exact (Hothers j x Hj Hne HP).
  - intros [<- <-]. tauto.
Qed.

(** Clearing a user's cart removes each of that user's lines and no line
    of anybody else. *)
Lemma delete_cart_other (uid u p : string) (db : Db.t) :
  u <> uid -> Db.cart (Db.delete_cart uid db) !! (u, p) = Db.cart db !! (u, p).
Proof.
  intros Hne. unfold Db.delete_cart. simpl. apply option_eq. intros q.
  rewrite map_lookup_filter_Some. simpl. tauto.
Qed.

Lemma cart_of_spec (uid pid : string) (q : Z) (db : Db.t) :
  (pid, q) ∈ Db.cart_of uid db <-> Db.cart db !! (uid, pid) = Some q.
Proof.
  unfold Db.cart_of. rewrite list_elem_of_fmap. split.
  - intros ([[u p] q'] & E & Hin). simpl in E. injection E as -> ->.
    apply elem_of_map_to_list, map_lookup_filter_Some in Hin. simpl in Hin.
    destruct Hin as [Hl ->]. exact Hl.
  - intros Hl. exists ((uid, pid), q). split; [reflexivity|].
    apply elem_of_map_to_list, map_lookup_filter_Some. simpl. tauto.
Qed.

End DbFacts.


(** ** Manual verification *)

Module VerifyProps.
Import JsString Http Paystack DbFacts.

(** The successful path of [POST /verify], spelled out. *)
Lemma verify_success gateway_verify uid reference_ db g id o :
  truthy (get reference_) = true ->
  gateway_verify (get reference_) = VerifyData "success" g ->
  Db.order_by_reference (get reference_) uid db = Some (id, o) ->
  Db.payment_status o <> Db.PsSuccess ->
  verify gateway_verify uid reference_ db
  = (Db.delete_cart uid
       (Db.update_order id (set_payment Db.PsSuccess Db.OsProcessing None) db),
     Verified "Payment verified successfully" id false).
Proof.
  intros Ht Hg Hl Hs. unfold verify. rewrite Ht, Hg. simpl. rewrite Hl.
  now rewrite decide_False by assumption.
Qed.

(** Marking the found order as paid keeps it the one order found. *)
Lemma order_by_reference_after_update reference uid db id o :
  Db.order_by_reference reference uid db = Some (id, o) ->
  Db.order_by_reference reference uid
    (Db.delete_cart uid
       (Db.update_order id (set_payment Db.PsSuccess Db.OsProcessing None) db))
  = Some (id, set_payment Db.PsSuccess Db.OsProcessing None o).
Proof.
  intros H. pose proof (order_by_reference_sound _ _ _ _ _ H) as (Hl & Hr & Hu).
  apply order_by_reference_Some in H. apply order_by_reference_Some. simpl.
  apply map_eq. intros j. apply option_eq. intros x.
  rewrite map_lookup_filter_Some, lookup_singleton_Some. simpl.
  destruct (decide (j = id)) as [->|Hne].
  - rewrite lookup_alter_eq, Hl. simpl. split.
    + intros [E _]. split; congruence.
    + intros [_ <-]. simpl. rewrite Hr. tauto.
  - rewrite lookup_alter_ne by congruence. split.
    + intros [Hj HP].
      assert (L : filter (fun kv : string * Db.Order =>
                            Db.payment_reference kv.2 = Some reference
                            /\ Db.user_id kv.2 = uid) (Db.orders db) !! j = Some x)
        by now apply map_lookup_filter_Some.
      rewrite H in L. apply lookup_singleton_Some in L. destruct L; congruence.
    + intros [E _]. congruence.
Qed.

(** X1: manual verification is idempotent: verifying the same reference
    again, with the gateway giving the same answers, leaves the database as
    the first verification left it. *)
Theorem verify_idempotent
    (gateway_verify : string -> VerifyResult) (uid : string)
    (reference_ : option string) (db : Db.t) :
  (verify gateway_verify uid reference_ (verify gateway_verify uid reference_ db).1).1
  = (verify gateway_verify uid reference_ db).1.
Proof.
  destruct (truthy (get reference_)) eqn:Ht;
    [|unfold verify at 2; rewrite Ht; simpl; unfold verify; now rewrite Ht].
  destruct (gateway_verify (get reference_)) as [st g| |] eqn:Hg;
    try (unfold verify at 2; rewrite Ht, Hg; simpl; unfold verify; now rewrite Ht, Hg).
  destruct (String.eqb_spec st "success") as [->|Hst].
  2:{ apply String.eqb_neq in Hst.
      unfold verify at 2; rewrite Ht, Hg, Hst; simpl; unfold verify.
      now rewrite Ht, Hg, Hst. }
  destruct (Db.order_by_reference (get reference_) uid db) as [[id o]|] eqn:Hl.
  2:{ unfold verify at 2; rewrite Ht, Hg, Hl; simpl; unfold verify.
      now rewrite Ht, Hg, Hl. }
  destruct (decide (Db.payment_status o = Db.PsSuccess)) as [Hs|Hs].
  - unfold verify at 2. rewrite Ht, Hg, Hl. simpl.
    rewrite decide_True by assumption. simpl.
    unfold verify. rewrite Ht, Hg, Hl. simpl. now rewrite decide_True by assumption.
  - rewrite (verify_success _ _ _ _ g id o Ht Hg Hl Hs). simpl fst.
    unfold verify. rewrite Ht, Hg. simpl.
    rewrite (order_by_reference_after_update _ _ _ _ _ Hl).
    now rewrite decide_True by reflexivity.
Qed.

(** X2: manual verification by [uid] writes nothing that belongs to someone
    else: stock is untouched, orders of other users stay as they are, and
    so do the cart lines of other users. *)
Theorem verify_touches_only_caller
    (gateway_verify : string -> VerifyResult) (uid : string)
    (reference_ : option string) (db : Db.t) :
  let db' := (verify gateway_verify uid reference_ db).1 in
  Db.products db' = Db.products db
  /\ (forall id o, Db.orders db !! id = Some o -> Db.user_id o <> uid ->
                   Db.orders db' !! id = Some o)
  /\ (forall u p, u <> uid -> Db.cart db' !! (u, p) = Db.cart db !! (u, p)).
Proof.
  intros db'. subst db'. unfold verify.
  destruct (negb (truthy (get reference_))); [simpl; tauto|].
  destruct (gateway_verify (get reference_)) as [st g| |]; try (simpl; tauto).
  destruct (String.eqb st "success"); [|simpl; tauto].
  destruct (Db.order_by_reference (get reference_) uid db) as [[id o]|] eqn:Hl;
    [|simpl; tauto].
  destruct (decide (Db.payment_status o = Db.PsSuccess)); [simpl; tauto|].
  apply order_by_reference_sound in Hl. destruct Hl as (Hl & _ & Hu).
  simpl fst. repeat split.
  - intros id' o' Hl' Hne. simpl. rewrite lookup_alter_ne; [exact Hl'|].
    intros <-. congruence.
  - intros u p Hne. now rewrite delete_cart_other.
Qed.

(** X3: manual verification changes the database only when the gateway
    reports the transaction as successful; otherwise the caller gets a 400
    or 500 and everything stays as it was. *)
Theorem verify_needs_gateway_success
    (gateway_verify : string -> VerifyResult) (uid : string)
    (reference_ : option string) (db : Db.t) :
  (forall g, gateway_verify (get reference_) <> VerifyData "success" g) ->
  (verify gateway_verify uid reference_ db).1 = db
  /\ (status_of (verify gateway_verify uid reference_ db).2 = 400%nat
      \/ status_of (verify gateway_verify uid reference_ db).2 = 500%nat).
Proof.
  intros Hg. unfold verify.
  destruct (negb (truthy (get reference_))); [simpl; tauto|].
  destruct (gateway_verify (get reference_)) as [st g| |] eqn:E; try (simpl; tauto).
  destruct (String.eqb_spec st "success") as [->|Hst]; [|simpl; tauto].
  now destruct (Hg g).
Qed.

Lemma verify_needs_gateway_success_witness :
  (verify (fun _ => VerifyData "abandoned" "Declined") "u1" (Some Sample.ref1)
          Sample.shop).1 = Sample.shop.
Proof.
  refine (proj1 (verify_needs_gateway_success
                   (fun _ => VerifyData "abandoned" "Declined") "u1"
                   (Some Sample.ref1) Sample.shop _)).
  intros g. discriminate.
Defined.

End VerifyProps.


(** ** Webhook events *)

Module WebhookProps.
Import JsString Http Paystack DbFacts.

Lemma decrementAll_other_product (items : list Delivery.Item) (db : Db.t) (pid : string) :
  Forall (fun item => Delivery.product_id item <> pid) items ->
  Db.products (decrementAll items db) !! pid = Db.products db !! pid.
Proof.
  unfold decrementAll. revert db.
  induction items as [|i items IH]; intros db H; simpl; [reflexivity|].
  inversion H as [|? ? Hi Hrest]; subst.
  rewrite IH by assumption. simpl. now rewrite lookup_alter_ne.
Qed.

(** X4: the webhook writes only what its metadata names: an order other
    than [metadata.order_id] stays as it is, a cart line of a user other
    than [metadata.user_id] stays as it is, and so does the stock of a
    product that is on no line of the order. *)
Theorem handleEvent_touches_only_named (e : Event) (db : Db.t) :
  let db' := (handleEvent e db).1 in
  (forall id, id <> meta_order_id e -> Db.orders db' !! id = Db.orders db !! id)
  /\ (forall u p, u <> meta_user_id e -> Db.cart db' !! (u, p) = Db.cart db !! (u, p))
  /\ (forall pid o,
        Db.orders db !! meta_order_id e = Some o ->
        Forall (fun item => Delivery.product_id item <> pid) (Db.order_items o) ->
        Db.products db' !! pid = Db.products db !! pid).
Proof.
  intros db'. subst db'. unfold handleEvent.
  destruct (String.eqb (event e) "charge.success" && truthy (meta_order_id e)
            && truthy (meta_user_id e)).
  - destruct (Db.orders db !! meta_order_id e) as [o|] eqn:Hl; [|simpl; tauto].
    simpl fst. repeat split.
    + intros id Hne. rewrite ReconciliationProps.decrementAll_orders. simpl.
      now rewrite lookup_alter_ne by congruence.
    + intros u p Hne. rewrite ReconciliationProps.decrementAll_cart.
      now rewrite delete_cart_other.
    + intros pid o' E Hlines. injection E as <-.
      now rewrite decrementAll_other_product.
  - unfold chargeFailed.
    destruct (String.eqb (event e) "charge.failed" && truthy (meta_order_id e));
      [|simpl; tauto].
    simpl. repeat split; try reflexivity.
    intros id Hne. now rewrite lookup_alter_ne by congruence.
Qed.

(** X5: a [charge.failed] event carrying a reference marks the named
    order failed/cancelled and records the reference, whatever the order's
    state was, a paid order included; owner, lines and total stay, as do
    the cart and the stock; the answer is the plain acknowledgement. *)
Theorem charge_failed_overwrites (e : Event) (db : Db.t) (o : Db.Order) (r : string) :
  event e = "charge.failed" ->
  truthy (meta_order_id e) = true ->
  reference (data e) = Some r ->
  Db.orders db !! meta_order_id e = Some o ->
  let res := handleEvent e db in
  res.2 = Received
  /\ (exists o', Db.orders res.1 !! meta_order_id e = Some o'
                 /\ Db.payment_status o' = Db.PsFailed
                 /\ Db.order_status o' = Db.OsCancelled
                 /\ Db.payment_reference o' = Some r
                 /\ Db.user_id o' = Db.user_id o
                 /\ Db.order_items o' = Db.order_items o
                 /\ Db.total o' = Db.total o)
  /\ Db.cart res.1 = Db.cart db
  /\ Db.products res.1 = Db.products db.
Proof.
  intros He Ho Hr Hl res. subst res. unfold handleEvent, chargeFailed.
  rewrite He, Ho, Hr. simpl. split; [reflexivity|]. split; [|split; reflexivity].
  rewrite lookup_alter_eq, Hl. simpl. eexists. split; [reflexivity|].
  simpl. repeat split.
Qed.

(** X6: events that cannot be reconciled change nothing.  An event that
    is neither a complete [charge.success] (with both [order_id] and
    [user_id]) nor a [charge.failed] with an [order_id] is acknowledged; a
    complete [charge.success] for an order id that is not in the table is
    answered 404. *)
Theorem unresolvable_event_changes_nothing (e : Event) (db : Db.t) :
  (event e <> "charge.success" \/ truthy (meta_order_id e) = false
   \/ truthy (meta_user_id e) = false ->
   event e <> "charge.failed" \/ truthy (meta_order_id e) = false ->
   handleEvent e db = (db, Received))
  /\ (event e = "charge.success" ->
      truthy (meta_order_id e) = true -> truthy (meta_user_id e) = true ->
      Db.orders db !! meta_order_id e = None ->
      handleEvent e db = (db, Error 404 "Order not found")).
Proof.
  split.
  - intros Hs Hf. unfold handleEvent, chargeFailed.
    assert (E1 : String.eqb (event e) "charge.success" && truthy (meta_order_id e)
                 && truthy (meta_user_id e) = false).
    { destruct Hs as [H|[H|H]].
      - apply String.eqb_neq in H. now rewrite H.
      - rewrite H. now rewrite andb_false_r.
      - rewrite H. now rewrite andb_false_r. }
    assert (E2 : String.eqb (event e) "charge.failed" && truthy (meta_order_id e)
                 = false).
    { destruct Hf as [H|H].
      - apply String.eqb_neq in H. now rewrite H.
      - rewrite H. now rewrite andb_false_r. }
    now rewrite E1, E2.
  - intros He Ho Hu Hl. unfold handleEvent. rewrite He, Ho, Hu. simpl.
    now rewrite Hl.
Qed.

(** X7: webhook first, verification second, in general: once the webhook
    has settled order [oid] of user [uid] under reference [r], a manual
    verification of [r] by [uid] finds the order paid and writes nothing,
    provided no other order of that user carries [r]. *)
Theorem verify_after_webhook_writes_nothing
    (gateway_verify : string -> VerifyResult) (e : Event) (db : Db.t)
    (oid uid r : string) (o : Db.Order) :
  event e = "charge.success" ->
  metadata (data e) = Some (mkMetadata (Some oid) (Some uid)) ->
  truthy oid = true -> truthy uid = true ->
  reference (data e) = Some r ->
  Db.orders db !! oid = Some o -> Db.user_id o = uid ->
  (forall id' o', Db.orders db !! id' = Some o' -> id' <> oid ->
                  ~ (Db.payment_reference o' = Some r /\ Db.user_id o' = uid)) ->
  let db1 := (handleEvent e db).1 in
  (verify gateway_verify uid (Some r) db1).1 = db1
  /\ (forall g, truthy r = true -> gateway_verify r = VerifyData "success" g ->
        (verify gateway_verify uid (Some r) db1).2
        = Verified "Payment already verified" oid true).
Proof.
  intros He Hm Ho Hu Hr Hl Howner Hothers db1. subst db1.
  rewrite (ReconciliationProps.handleEvent_success e db oid uid o) by assumption.
  simpl fst. rewrite Hr.
  set (o1 := set_payment Db.PsSuccess Db.OsProcessing (Some r) o).
  set (db1 := decrementAll _ _).
  assert (Hfound : Db.order_by_reference r uid db1 = Some (oid, o1)).
  { apply order_by_reference_complete.
    - subst db1. rewrite ReconciliationProps.decrementAll_orders. simpl.
      now rewrite lookup_alter_eq, Hl.
    - reflexivity.
    - exact Howner.
    - intros id' o' Hl' Hne. subst db1.
      rewrite ReconciliationProps.decrementAll_orders in Hl'. simpl in Hl'.
      rewrite lookup_alter_ne in Hl' by congruence. exact (Hothers id' o' Hl' Hne). }
  split.
  - now apply (ReconciliationProps.verify_already_processed _ _ (Some r) _ oid o1).
  - intros g Ht Hg. unfold verify. simpl get. rewrite Ht, Hg. simpl.
    rewrite Hfound. now rewrite decide_True by reflexivity.
Qed.

End WebhookProps.


(** ** Order creation, continued *)

Module CheckoutProps.
Import JsString Http Orders Invariants DbFacts.

(** What the stock-check loop returns when it succeeds. *)
Lemma prepareOrderItems_Items products rows acc items :
  prepareOrderItems products rows acc = Items items ->
  exists new, items = (acc ++ new)%list /\ Forall2 (snapshot_of products) rows new.
Proof.
  revert acc. induction rows as [|[pid q] rows IH]; intros acc H; simpl in H.
  - injection H as <-. exists []. split; [now rewrite app_nil_r | constructor].
  - destruct (products !! pid) as [p|] eqn:Hp; [|discriminate].
    destruct (Db.stock p <? q)%Z eqn:Hs; [discriminate|].
    apply IH in H. destruct H as (new & -> & HF).
    exists (Delivery.mkItem pid (Db.name p) q (Db.price p) :: new). split.
    + now rewrite <- app_assoc.
    + constructor; [|exact HF]. unfold snapshot_of. simpl.
      repeat split. exists p. repeat split; try assumption.
      now apply Z.ltb_ge.
Qed.

(** The two ways [POST /create] can end: nothing written, or one order
    inserted and then updated once. *)
Lemma create_cases gateway new_id now uid body db :
  (create gateway new_id now uid body db).1 = db
  \/ exists orderItems g,
       Db.orders db !! new_id = None
       /\ prepareOrderItems (Db.products db) (Db.cart_of uid db) [] = Items orderItems
       /\ (g = set_order_status Db.OsPaymentFailed
           \/ exists paystackData, g = set_reference (reference paystackData))
       /\ (create gateway new_id now uid body db).1
          = Db.update_order new_id g
              (Db.insert_order new_id
                 (newOrder uid body orderItems
                    (Delivery.calculateOrderTotals orderItems (get (state body)) None))
                 db).
Proof.
  unfold create.
  destruct (negb (truthy (get (state body))) || negb (truthy (get (city body)))
            || negb (truthy (get (address body)))); [now left|].
  destruct (negb (truthy (get (email body)))); [now left|].
  destruct (negb (Delivery.validateNigerianState (get (state body)))); [now left|].
  destruct (Db.cart_of uid db) as [|c cartItems] eqn:Hcart; [now left|].
  destruct (prepareOrderItems (Db.products db) (c :: cartItems) [])
    as [orderItems|n|] eqn:Hprep; try now left.
  destruct (Db.orders db !! new_id) eqn:Hfresh; [now left|].
  right.
  destruct (gateway _) as [paystackData|].
  - exists orderItems, (set_reference (reference paystackData)).
    repeat split; try reflexivity. right. now exists paystackData.
  - exists orderItems, (set_order_status Db.OsPaymentFailed).
    repeat split; try reflexivity. now left.
Qed.

(** X8: order creation never consumes stock and never empties the cart:
    whatever the request and the gateway's answer, [products] and [cart]
    are afterwards what they were before. *)
Theorem create_keeps_stock_and_cart
    (gateway : Gateway) (new_id : string) (now : N) (uid : string)
    (body : CreateBody) (db : Db.t) :
  Db.products (create gateway new_id now uid body db).1 = Db.products db
  /\ Db.cart (create gateway new_id now uid body db).1 = Db.cart db.
Proof.
  destruct (create_cases gateway new_id now uid body db)
    as [->|(items & g & _ & _ & _ & ->)]; split; reflexivity.
Qed.

(** X9: order creation either writes nothing or adds exactly one order,
    under the fresh id, owned by the caller, with payment pending; every
    other order is left as it was. *)
Theorem create_adds_one_pending_order
    (gateway : Gateway) (new_id : string) (now : N) (uid : string)
    (body : CreateBody) (db : Db.t) :
  let db' := (create gateway new_id now uid body db).1 in
  db' = db
  \/ (Db.orders db !! new_id = None
      /\ (exists o, Db.orders db' !! new_id = Some o
                    /\ Db.user_id o = uid
                    /\ Db.payment_status o = Db.PsPending
                    /\ (Db.order_status o = Db.OsPending
                        \/ Db.order_status o = Db.OsPaymentFailed))
      /\ (forall id, id <> new_id -> Db.orders db' !! id = Db.orders db !! id)).
Proof.
  intros db'. subst db'.
  destruct (create_cases gateway new_id now uid body db)
    as [->|(items & g & Hfresh & _ & Hg & ->)]; [now left|right].
  split; [exact Hfresh|]. split.
  - simpl. rewrite lookup_alter_eq, lookup_insert_eq. simpl.
    eexists. split; [reflexivity|].
    destruct Hg as [->|[d ->]]; simpl; tauto.
  - intros id Hne. simpl.
    now rewrite lookup_alter_ne, lookup_insert_ne by congruence.
Qed.

(** X10: every line of a created order is the snapshot of a cart row of
    the caller: it names a product that exists, carries that product's
    name and price, and its quantity was within the stock. *)
Theorem created_order_lines_are_snapshots
    (gateway : Gateway) (new_id : string) (now : N) (uid : string)
    (body : CreateBody) (db : Db.t) (o : Db.Order) :
  Db.orders db !! new_id = None ->
  Db.orders (create gateway new_id now uid body db).1 !! new_id = Some o ->
  Forall2 (snapshot_of (Db.products db)) (Db.cart_of uid db) (Db.order_items o).
Proof.
  intros Hfresh Ho.
  destruct (create_cases gateway new_id now uid body db)
    as [E|(items & g & _ & Hprep & Hg & E)]; rewrite E in Ho.
  - congruence.
  - simpl in Ho. rewrite lookup_alter_eq, lookup_insert_eq in Ho. simpl in Ho.
    injection Ho as <-.
    apply prepareOrderItems_Items in Hprep. destruct Hprep as (new & -> & HF).
    destruct Hg as [->|[d ->]]; exact HF.
Qed.

(** X11: no order is created while some line of the caller's cart asks
    for more than the stock of its product. *)
Theorem create_refuses_oversized_line
    (gateway : Gateway) (new_id : string) (now : N) (uid : string)
    (body : CreateBody) (db : Db.t) (pid : string) (q : Z) (p : Db.Product) :
  Db.cart db !! (uid, pid) = Some q ->
  Db.products db !! pid = Some p ->
  (Db.stock p < q)%Z ->
  (create gateway new_id now uid body db).1 = db.
Proof.
  intros Hline Hp Hlt.
  destruct (create_cases gateway new_id now uid body db)
    as [E|(items & g & _ & Hprep & _ & _)]; [exact E|exfalso].
  apply prepareOrderItems_Items in Hprep. destruct Hprep as (new & _ & HF).
  apply cart_of_spec in Hline.
  apply list_elem_of_lookup_1 in Hline. destruct Hline as [i Hi].
  destruct (Forall2_lookup_l _ _ _ _ _ HF Hi) as (item & _ & Hsnap).
  destruct Hsnap as (_ & _ & p' & Hp' & _ & _ & Hle). simpl in Hp', Hle.
  rewrite Hp in Hp'. injection Hp' as <-. lia.
Qed.

End CheckoutProps.


(** ** Amounts of a created order *)

Module OrderAmountProps.
Import JsString Http Orders Invariants DbFacts.
Local Open Scope Q_scope.

Lemma Math_round_inject (z : Z) : Delivery.Math_round (inject_Z z) = z.
Proof. apply PricingProps.Math_round_unique; lra. Qed.

(** A rounded amount times 100 is a whole number of kobo. *)
Lemma round2_kobo (x : Q) :
  Delivery.round2 x * 100 == inject_Z (Delivery.Math_round (x * 100)).
Proof. unfold Delivery.round2. field. Qed.


(** X13: the amount order creation asks the gateway for is the order's
    total in kobo, exactly: no kobo is gained or lost by the conversion. *)
Theorem init_amount_is_total_in_kobo
    (email_ id uid : string) (now : N) (body : CreateBody)
    (items : list Delivery.Item) (state_ : string) :
  let order := newOrder uid body items
                 (Delivery.calculateOrderTotals items state_ None) in
  inject_Z (init_amount (initRequest email_ id order uid now)) == Db.total order * 100.
Proof.
  intros order. subst order.
  cbn -[Delivery.round2 Delivery.rawSubtotal Delivery.calculateDeliveryFee
        Delivery.Math_round].
  set (x := Delivery.rawSubtotal items
            + inject_Z (Delivery.calculateDeliveryFee state_) - 0).
  rewrite (PricingProps.Math_round_comp _ _ (round2_kobo x)).
  rewrite Math_round_inject. symmetry. apply round2_kobo.
Qed.

End OrderAmountProps.

(** ** Payment retry, continued *)

Module RetryProps.
Import JsString Http Orders DbFacts.

(** X14: a payment retry writes at most the [payment_reference] of the
    order it names: stock and carts stay as they are, every order keeps its
    owner, lines, total, [payment_status] and [order_status], and every
    other order is unchanged altogether. *)
Theorem retry_changes_only_reference
    (gateway : Gateway) (now : N) (uid id : string) (email_ : option string)
    (db : Db.t) :
  let db' := (retry_payment gateway now uid id email_ db).1 in
  Db.products db' = Db.products db
  /\ Db.cart db' = Db.cart db
  /\ forall id' o, Db.orders db !! id' = Some o ->
       exists o', Db.orders db' !! id' = Some o'
                  /\ Db.user_id o' = Db.user_id o
                  /\ Db.order_items o' = Db.order_items o
                  /\ Db.total o' = Db.total o
                  /\ Db.payment_status o' = Db.payment_status o
                  /\ Db.order_status o' = Db.order_status o
                  /\ (id' <> id -> o' = o).
Proof.
  intros db'. subst db'. unfold retry_payment.
  assert (Hsame : forall id' o, Db.orders db !! id' = Some o ->
            exists o', Db.orders db !! id' = Some o'
                       /\ Db.user_id o' = Db.user_id o
                       /\ Db.order_items o' = Db.order_items o
                       /\ Db.total o' = Db.total o
                       /\ Db.payment_status o' = Db.payment_status o
                       /\ Db.order_status o' = Db.order_status o
                       /\ (id' <> id -> o' = o)).
  { intros id' o H. exists o. tauto. }
  destruct (negb (truthy (get email_))); [simpl; tauto|].
  destruct (Db.order_of_user id uid db) as [order|]; [|simpl; tauto].
  destruct (decide (Db.payment_status order = Db.PsSuccess)); [simpl; tauto|].
  destruct (gateway _) as [d|]; [|simpl; tauto].
  simpl. repeat split. intros id' o Hl.
  destruct (decide (id' = id)) as [->|Hne].
  - rewrite lookup_alter_eq, Hl. simpl. eexists. split; [reflexivity|].
    simpl. tauto.
  - rewrite lookup_alter_ne by congruence. exists o. tauto.
Qed.

(** X15: a retry for an order that is already paid, or that the caller
    does not own, never reaches the gateway: it is refused with 400 or 404
    and nothing is written. *)
Theorem retry_refused_for_paid_or_foreign_order
    (gateway : Gateway) (now : N) (uid id : string) (email_ : option string)
    (db : Db.t) :
  (forall o, Db.orders db !! id = Some o ->
             Db.user_id o <> uid \/ Db.payment_status o = Db.PsSuccess) ->
  let r := retry_payment gateway now uid id email_ db in
  r.1 = db /\ (status_of r.2 = 400%nat \/ status_of r.2 = 404%nat).
Proof.
  intros H r. subst r. unfold retry_payment, Db.order_of_user.
  destruct (negb (truthy (get email_))); [simpl; tauto|].
  destruct (Db.orders db !! id) as [o|]; [|simpl; tauto].
  destruct (decide (Db.user_id o = uid)) as [Hu|Hu]; [|simpl; tauto].
  destruct (decide (Db.payment_status o = Db.PsSuccess)); [simpl; tauto|].
  destruct (H o eq_refl); contradiction.
Qed.

End RetryProps.


(** ** Checkout followed by manual verification *)

Module FlowProps.
Import JsString Http Orders Paystack DbFacts.

(** The successful path of [POST /create], spelled out. *)
Lemma create_success gateway new_id now uid body db c cartItems orderItems paystackData :
  truthy (get (state body)) = true ->
  truthy (get (city body)) = true ->
  truthy (get (address body)) = true ->
  truthy (get (email body)) = true ->
  Delivery.validateNigerianState (get (state body)) = true ->
  Db.cart_of uid db = c :: cartItems ->
  prepareOrderItems (Db.products db) (c :: cartItems) [] = Items orderItems ->
  Db.orders db !! new_id = None ->
  let order := newOrder uid body orderItems
                 (Delivery.calculateOrderTotals orderItems (get (state body)) None) in
  gateway (initRequest (get (email body)) new_id order uid now) = Some paystackData ->
  create gateway new_id now uid body db
  = (Db.update_order new_id (set_reference (Http.reference paystackData))
       (Db.insert_order new_id order db),
     Created new_id (set_reference (Http.reference paystackData) order) paystackData).
Proof.
  intros Hs Hc Ha He Hv Hcart Hprep Hfresh order Hgw.
  unfold create. rewrite Hs, Hc, Ha, He, Hv. simpl negb. simpl orb. cbv iota.
  rewrite Hcart, Hprep, Hfresh. fold order. now rewrite Hgw.
Qed.

(** X16: the pull-side happy path.  After a checkout whose gateway call
    succeeded, a manual verification of the returned reference by the same
    user (the gateway reporting success) marks the new order
    success/processing and empties that user's cart, and the stock is
    still what it was before the checkout.  The reference must not already
    be on another order of the user. *)
Theorem checkout_then_verify
    (gateway : Gateway) (gateway_verify : string -> VerifyResult)
    (new_id : string) (now : N) (uid : string) (body : CreateBody) (db : Db.t)
    (c : string * Z) (cartItems : list (string * Z))
    (orderItems : list Delivery.Item) (paystackData : PaystackData) (g : string) :
  truthy (get (state body)) = true ->
  truthy (get (city body)) = true ->
  truthy (get (address body)) = true ->
  truthy (get (email body)) = true ->
  Delivery.validateNigerianState (get (state body)) = true ->
  Db.cart_of uid db = c :: cartItems ->
  prepareOrderItems (Db.products db) (c :: cartItems) [] = Items orderItems ->
  Db.orders db !! new_id = None ->
  gateway (initRequest (get (email body)) new_id
             (newOrder uid body orderItems
                (Delivery.calculateOrderTotals orderItems (get (state body)) None))
             uid now) = Some paystackData ->
  truthy (Http.reference paystackData) = true ->
  (forall id' o', Db.orders db !! id' = Some o' ->
                  ~ (Db.payment_reference o' = Some (Http.reference paystackData)
                     /\ Db.user_id o' = uid)) ->
  gateway_verify (Http.reference paystackData) = VerifyData "success" g ->
  let db1 := (create gateway new_id now uid body db).1 in
  let r := verify gateway_verify uid (Some (Http.reference paystackData)) db1 in
  r.2 = Verified "Payment verified successfully" new_id false
  /\ (exists o, Db.orders r.1 !! new_id = Some o
                /\ Db.payment_status o = Db.PsSuccess
                /\ Db.order_status o = Db.OsProcessing
                /\ Db.payment_reference o = Some (Http.reference paystackData))
  /\ (forall pid, Db.cart r.1 !! (uid, pid) = None)
  /\ Db.products r.1 = Db.products db.
Proof.
  intros Hs Hc Ha He Hv Hcart Hprep Hfresh Hgw Href Hnew Hver db1 r. subst r db1.
  rewrite (create_success gateway new_id now uid body db c cartItems orderItems
             paystackData) by assumption.
  simpl fst.
  set (order := newOrder uid body orderItems _).
  set (o1 := set_reference (Http.reference paystackData) order).
  set (db1 := Db.update_order new_id _ _).
  assert (Hfound : Db.order_by_reference (Http.reference paystackData) uid db1
                   = Some (new_id, o1)).
  { apply order_by_reference_complete.
    - subst db1. simpl. now rewrite lookup_alter_eq, lookup_insert_eq.
    - reflexivity.
    - reflexivity.
    - intros id' o' Hl' Hne. subst db1. simpl in Hl'.
      rewrite lookup_alter_ne, lookup_insert_ne in Hl' by congruence.
      exact (Hnew id' o' Hl'). }
  rewrite (VerifyProps.verify_success gateway_verify uid
             (Some (Http.reference paystackData)) db1 g new_id o1)
    by (assumption || discriminate).
  simpl fst. simpl snd. split; [reflexivity|]. split; [|split].
  - subst db1. simpl. rewrite !lookup_alter_eq, lookup_insert_eq. simpl.
    eexists. split; [reflexivity|]. simpl. tauto.
  - intros pid. apply ReconciliationProps.delete_cart_lookup.
  - reflexivity.
Qed.

End FlowProps.

(** ** Cart, continued *)

Module CartAddProps.
Import JsString Http DbFacts.

(** X17: after an accepted add, reading the caller's cart gives the
    product with the quantity just sent and with no other quantity, and
    the cart of any other user reads as before. *)
Theorem add_then_read
    (uid pid : string) (q : option Z) (db : Db.t) (p : Db.Product) :
  truthy pid = true ->
  Db.products db !! pid = Some p ->
  (default 1%Z q <= Db.stock p)%Z ->
  let db' := (Cart.add uid (Some pid) q db).1 in
  (forall q', (pid, q') ∈ Db.cart_of uid db' <-> q' = default 1%Z q)
  /\ (forall u line, u <> uid -> line ∈ Db.cart_of u db' <-> line ∈ Db.cart_of u db).
Proof.
  intros Hpid Hp Hle db'. subst db'. unfold Cart.add. simpl get.
  rewrite Hpid, Hp. simpl negb. cbv iota.
  apply Z.ltb_ge in Hle. rewrite Hle. simpl fst. split.
  - intros q'. rewrite cart_of_spec. simpl. rewrite lookup_insert_eq.
    split; congruence.
  - intros u [pid' q'] Hne. rewrite !cart_of_spec. simpl.
    now rewrite lookup_insert_ne by congruence.
Qed.

(** X18: [POST /add] has no lower bound on the quantity: zero and negative
    quantities pass the stock check of any product whose stock is not
    negative and are stored as sent. *)
Theorem add_accepts_nonpositive_quantity
    (uid pid : string) (q : Z) (db : Db.t) (p : Db.Product) :
  truthy pid = true ->
  Db.products db !! pid = Some p ->
  (0 <= Db.stock p)%Z -> (q <= 0)%Z ->
  let r := Cart.add uid (Some pid) (Some q) db in
  r.2 = CartItem "Product added to cart" uid pid q
  /\ Db.cart r.1 !! (uid, pid) = Some q.
Proof.
  intros Hpid Hp Hs Hq r. subst r. unfold Cart.add. simpl get. simpl default.
  rewrite Hpid, Hp. simpl negb. cbv iota.
  assert (E : (Db.stock p <? q)%Z = false) by (apply Z.ltb_ge; lia).
  rewrite E. simpl. split; [reflexivity | apply lookup_insert_eq].
Qed.

End CartAddProps.


(** ** Delivery fee, continued *)

Module FeeProps.
Import JsString JsStringFacts Delivery.

Lemma lowerChar_idempotent (c : ascii) : lowerChar (lowerChar c) = lowerChar c.
Proof. destruct c as [[] [] [] [] [] [] [] []]; reflexivity. Qed.

Lemma toLowerCase_idempotent (s : string) : toLowerCase (toLowerCase s) = toLowerCase s.
Proof.
  induction s as [|c s IH]; simpl; [reflexivity|].
  now rewrite lowerChar_idempotent, IH.
Qed.

Lemma truthy_toLowerCase (s : string) : truthy (toLowerCase s) = truthy s.
Proof. now destruct s. Qed.

Lemma trimStart_whitespace (s : string) :
  allWhitespace s = true -> trimStart s = EmptyString.
Proof.
  induction s as [|c s IH]; simpl; [reflexivity|].
  intros [Hc Hs]%andb_prop. rewrite Hc. auto.
Qed.

(** Trailing white space does not survive trimming. *)
Lemma trim_app_whitespace (s post : string) :
  allWhitespace post = true -> trim (s ++ post) = trim s.
Proof.
  intros Hp. unfold trim. induction s as [|c s IH].
  - simpl. now rewrite trimStart_whitespace.
  - simpl. destruct (isWhitespace c); [exact IH|].
    change (String c (s ++ post)) with (String c s ++ post).
    now apply trimEnd_app_whitespace.
Qed.

Lemma trim_padding (pre s post : string) :
  allWhitespace pre = true -> allWhitespace post = true ->
  trim (pre ++ s ++ post) = trim s.
Proof.
  intros Hpre Hpost. unfold trim at 1.
  rewrite trimStart_whitespace_app by assumption.
  now apply trim_app_whitespace.
Qed.

Lemma truthy_padded (pre s post : string) :
  s <> EmptyString -> truthy (pre ++ s ++ post) = true.
Proof. intros H. destruct s; [now destruct H | now destruct pre]. Qed.

(** X19: for a non-empty state the delivery fee does not depend on letter
    case or on white space around it.  A state made of white space only is
    charged the far-state fee 27000, not the 9000 of a missing state. *)
Theorem fee_ignores_case_and_padding (pre s post : string) :
  s <> EmptyString ->
  allWhitespace pre = true -> allWhitespace post = true ->
  calculateDeliveryFee (pre ++ s ++ post) = calculateDeliveryFee s
  /\ calculateDeliveryFee (toLowerCase s) = calculateDeliveryFee s
  /\ (allWhitespace s = true -> calculateDeliveryFee s = 27000%Z).
Proof.
  intros Hs Hpre Hpost.
  assert (Ht : truthy s = true) by (destruct s; [now destruct Hs | reflexivity]).
  unfold calculateDeliveryFee.
  rewrite (truthy_padded pre s post Hs), truthy_toLowerCase, Ht.
  simpl negb. cbv iota. repeat split.
  - rewrite !toLowerCase_app.
    rewrite (toLowerCase_whitespace pre), (toLowerCase_whitespace post) by assumption.
    now rewrite trim_padding.
  - now rewrite toLowerCase_idempotent.
  - intros Hw. rewrite toLowerCase_whitespace by assumption.
    unfold trim. rewrite trimStart_whitespace by assumption. reflexivity.
Qed.

Lemma fee_ignores_case_and_padding_witness :
  calculateDeliveryFee "  Ogun " = calculateDeliveryFee "Ogun"
  /\ calculateDeliveryFee "ogun" = calculateDeliveryFee "Ogun".
Proof.
  destruct (fee_ignores_case_and_padding "  " "Ogun" " ") as (H1 & H2 & _);
    [discriminate | reflexivity | reflexivity |].
  split; [exact H1 | exact H2].
Defined.

End FeeProps.

(** ** Order totals, continued *)

Module KoboProps.
Import Delivery Invariants.
Local Open Scope Q_scope.

Lemma whole_kobo_fold (items : list Item) (acc : Q) :
  whole_kobo acc ->
  Forall (fun item => whole_kobo (price item)) items ->
  whole_kobo (fold_left (fun acc item => acc + price item * inject_Z (quantity item))
                        items acc).
Proof.
  revert acc. induction items as [|i items IH]; intros acc Ha H; simpl; [exact Ha|].
  inversion H as [|? ? [zp Hp] Hrest]; subst. apply IH; [|exact Hrest].
  destruct Ha as [za Hacc]. exists (za + zp * quantity i)%Z.
  rewrite Hacc, Hp, inject_Z_plus, inject_Z_mult. field.
Qed.

(** Rounding leaves a whole number of kobo as it is. *)
Lemma round2_whole_kobo (x : Q) : whole_kobo x -> round2 x == x.
Proof.
  intros [z Hz]. rewrite Hz. unfold round2.
  assert (E : inject_Z z / 100 * 100 == inject_Z z) by field.
  rewrite (PricingProps.Math_round_comp _ _ E).
  now rewrite OrderAmountProps.Math_round_inject.
Qed.

Lemma in_range_prices (items : list Item) (discount : option Discount) :
  Exact.in_range items discount ->
  Forall (fun item => whole_kobo (price item)) items.
Proof.
  intros (_ & H & _). eapply Forall_impl; [exact H|]. intros item (Hk & _). exact Hk.
Qed.

Lemma in_range_subtotal (items : list Item) (discount : option Discount) :
  Exact.in_range items discount -> whole_kobo (rawSubtotal items).
Proof.
  intros H%in_range_prices. unfold rawSubtotal.
  apply whole_kobo_fold; [|exact H]. exists 0%Z. reflexivity.
Qed.

(** X20: on a cart of the exact range (at most twenty lines, whole-kobo
    prices, subtotal below 100 000 000) and with no discount, rounding
    loses nothing: the subtotal is the exact sum of price times quantity
    and the total is that sum plus the delivery fee. *)
Theorem kobo_prices_lose_nothing (items : list Item) (state : string) :
  Exact.in_range items None ->
  let t := calculateOrderTotals items state None in
  subtotal t == rawSubtotal items
  /\ total t == rawSubtotal items + inject_Z (calculateDeliveryFee state).
Proof.
  intros H t. subst t. cbn -[round2 rawSubtotal calculateDeliveryFee].
  pose proof (in_range_subtotal _ _ H) as Hs.
  split.
  - now apply round2_whole_kobo.
  - assert (E : rawSubtotal items + inject_Z (calculateDeliveryFee state) - 0
                == rawSubtotal items + inject_Z (calculateDeliveryFee state)) by ring.
    rewrite E, PricingProps.round2_add_Z. now rewrite round2_whole_kobo.
Qed.

Lemma kobo_prices_lose_nothing_witness :
  subtotal (calculateOrderTotals [Sample.sachet; Sample.line] "ogun" None)
  == rawSubtotal [Sample.sachet; Sample.line].
Proof.
  refine (proj1 (kobo_prices_lose_nothing [Sample.sachet; Sample.line] "ogun" _)).
  split; [simpl; lia|]. split; [|split; [reflexivity | exact I]].
  repeat constructor; try discriminate.
  - exists 1250%Z. reflexivity.
  - exists 500000%Z. reflexivity.
Defined.

End KoboProps.

(** ** Order totals on the exact range *)

Module ExactProps.
Import Delivery Invariants.
Local Open Scope Q_scope.





(** A rounded amount is within half a kobo of the amount. *)
Lemma round2_error (x : Q) : - (1 # 200) <= round2 x - x <= 1 # 200.
Proof.
  destruct (PricingProps.Math_round_bounds (x * 100)) as [Blo Bhi].
  unfold round2. set (m := Math_round (x * 100)) in *. clearbody m.
  unfold Qdiv. change (/ 100) with (1 # 100). split; lra.
Qed.




(** Claim C6, amended: the discount amount is zero when no discount is
    supplied; when one is supplied, on a cart of the exact range, it is a
    whole number of kobo within half a kobo of subtotal * percentage / 100
    (the nearest kobo; either neighbour on an exact tie); the validity
    date of the discount is never read, so an expired discount is applied
    like a valid one. *)
Theorem discountAmount_ignores_validity :
  (forall items state,
      discountAmount (calculateOrderTotals items state None) == 0)
  /\ (forall items state d,
        Exact.in_range items (Some d) ->
        whole_kobo (discountAmount (calculateOrderTotals items state (Some d)))
        /\ - (1 # 200)
           <= discountAmount (calculateOrderTotals items state (Some d))
              - rawSubtotal items * percentage d / 100
           <= 1 # 200)
  /\ (forall items state c p v v',
        calculateOrderTotals items state (Some (mkDiscount c p v))
        = calculateOrderTotals items state (Some (mkDiscount c p v'))).
Proof.
  split; [|split].
  - intros items state. reflexivity.
  - intros items state d _.
    cbn -[round2 rawSubtotal calculateDeliveryFee]. split.
    + eexists. unfold round2. reflexivity.
    + unfold truthyQ. destruct (Qeq_bool (percentage d) 0) eqn:E; simpl.
      * apply Qeq_bool_eq in E.
        assert (E0 : rawSubtotal items * percentage d / 100 == 0)
          by (rewrite E; field).
        pose proof PricingProps.round2_zero as R0.
        split; lra.
      * apply round2_error.
  - intros items state c p v v'. reflexivity.
Qed.

Lemma discountAmount_ignores_validity_witness :
  Exact.in_range [Fixtures.tonic] (Some Fixtures.fifteen)
  /\ Exact.half_kobo (Exact.exactDiscount [Fixtures.tonic] (Some Fixtures.fifteen))
  /\ - (1 # 200)
     <= discountAmount
          (calculateOrderTotals [Fixtures.tonic] "lagos" (Some Fixtures.fifteen))
        - (150015 # 1000)
     <= 1 # 200.
Proof.
  assert (R : Exact.in_range [Fixtures.tonic] (Some Fixtures.fifteen)).
  { split; [simpl; lia|]. split; [|split; [reflexivity|]].
    - repeat constructor; try discriminate. exists 100010%Z. reflexivity.
    - split; [exists 1500%Z; reflexivity | split; discriminate]. }
  split; [exact R|]. split; [exists 15001%Z; reflexivity|].
  pose proof (proj2 (proj1 (proj2 discountAmount_ignores_validity)
                       [Fixtures.tonic] "lagos" Fixtures.fifteen R)) as H.
  assert (E : rawSubtotal [Fixtures.tonic] * percentage Fixtures.fifteen / 100
              == 150015 # 1000) by reflexivity.
  rewrite E in H. exact H.
Defined.

End ExactProps.


(** ** Cart lines *)

Module CartLineProps.
Import JsString CartLines DbFacts.

Lemma delete_line_other (uid : string) (line : Line) (db : Db.t) (u p : string) :
  u <> uid -> Db.cart (delete_line uid line db) !! (u, p) = Db.cart db !! (u, p).
Proof.
  intros Hne. unfold delete_line.
  destruct (resolve line db) as [[[owner pid] q]|]; [|reflexivity].
  destruct (decide (owner = uid)) as [->|]; [|reflexivity].
  simpl. apply lookup_delete_ne. congruence.
Qed.

Lemma delete_line_rest (uid : string) (line : Line) (db : Db.t) :
  Db.products (delete_line uid line db) = Db.products db
  /\ Db.orders (delete_line uid line db) = Db.orders db
  /\ Db.journal (delete_line uid line db) = Db.journal db.
Proof.
  unfold delete_line.
  destruct (resolve line db) as [[[owner pid] q]|]; [|tauto].
  destruct (decide (owner = uid)); simpl; tauto.
Qed.

(** X21: the cart routes of a user never write to anybody else's cart,
    to the stock or to the orders: after an update, a removal or a clear by
    [uid], every line of every other user reads as before. *)
Theorem cart_routes_touch_only_caller
    (uid : string) (line : Line) (quantity : Z) (db : Db.t) :
  (forall u p, u <> uid ->
     Db.cart (update uid line quantity db).1 !! (u, p) = Db.cart db !! (u, p)
     /\ Db.cart (remove uid line db).1 !! (u, p) = Db.cart db !! (u, p)
     /\ Db.cart (clear uid db).1 !! (u, p) = Db.cart db !! (u, p))
  /\ Db.products (update uid line quantity db).1 = Db.products db
  /\ Db.products (remove uid line db).1 = Db.products db
  /\ Db.products (clear uid db).1 = Db.products db
  /\ Db.orders (update uid line quantity db).1 = Db.orders db
  /\ Db.orders (remove uid line db).1 = Db.orders db
  /\ Db.orders (clear uid db).1 = Db.orders db.
Proof.
  destruct (delete_line_rest uid line db) as (Hp & Ho & _).
  assert (Hu : forall u p, u <> uid ->
            Db.cart (update uid line quantity db).1 !! (u, p) = Db.cart db !! (u, p)).
  { intros u p Hne. unfold update.
    destruct (quantity <? 0)%Z; [reflexivity|].
    destruct (quantity =? 0)%Z; [now apply delete_line_other|].
    destruct (resolve line db) as [[[owner pid] q]|]; [|reflexivity].
    destruct (Db.products db !! pid) as [product|]; [|reflexivity].
    destruct (Db.stock product <? quantity)%Z; [reflexivity|].
    destruct (decide (owner = uid)) as [->|]; [|reflexivity].
    simpl. apply lookup_insert_ne. congruence. }
  assert (Hrest : Db.products (update uid line quantity db).1 = Db.products db
                  /\ Db.orders (update uid line quantity db).1 = Db.orders db).
  { unfold update.
    destruct (quantity <? 0)%Z; [tauto|].
    destruct (quantity =? 0)%Z; [simpl; tauto|].
    destruct (resolve line db) as [[[owner pid] q]|]; [|tauto].
    destruct (Db.products db !! pid) as [product|]; [|tauto].
    destruct (Db.stock product <? quantity)%Z; [tauto|].
    destruct (decide (owner = uid)); simpl; tauto. }
  split; [|simpl; tauto].
  intros u p Hne. split; [now apply Hu|]. split.
  - now apply delete_line_other.
  - now apply delete_cart_other.
Qed.

(** X22: a positive update of the caller's own line replaces its quantity
    when the stock covers the new quantity, leaving all other lines alone,
    and is refused with 400 and no change when it does not. *)
Theorem update_own_line
    (uid pid : string) (quantity q0 : Z) (db : Db.t) (p : Db.Product) :
  Db.cart db !! (uid, pid) = Some q0 ->
  Db.products db !! pid = Some p ->
  (0 < quantity)%Z ->
  let r := update uid (Some (uid, pid)) quantity db in
  ((quantity <= Db.stock p)%Z ->
     r.2 = Item "Cart updated" uid pid quantity
     /\ Db.cart r.1 !! (uid, pid) = Some quantity
     /\ (forall k, k <> (uid, pid) -> Db.cart r.1 !! k = Db.cart db !! k))
  /\ ((Db.stock p < quantity)%Z -> r = (db, Failure 400 "Insufficient stock")).
Proof.
  intros Hl Hp Hpos r. subst r. unfold update, resolve.
  assert (E1 : (quantity <? 0)%Z = false) by (apply Z.ltb_ge; lia).
  assert (E2 : (quantity =? 0)%Z = false) by (apply Z.eqb_neq; lia).
  rewrite E1, E2, Hl, Hp. split.
  - intros Hle. apply Z.ltb_ge in Hle. rewrite Hle.
    rewrite decide_True by reflexivity. simpl. repeat split.
    + apply lookup_insert_eq.
    + intros k Hk. now apply lookup_insert_ne.
  - intros Hlt. apply Z.ltb_lt in Hlt. now rewrite Hlt.
Qed.

(** X23: removing a line, by [DELETE /remove/:id] or by an update to
    quantity 0, deletes the caller's own line and only that line; for an id
    that names no line of the caller the answer is the same "Item removed
    from cart" although nothing is removed. *)
Theorem remove_line
    (uid : string) (line : Line) (db : Db.t) :
  update uid line 0 db = remove uid line db
  /\ (remove uid line db).2 = Message "Item removed from cart"
  /\ (forall pid q0, line = Some (uid, pid) -> Db.cart db !! (uid, pid) = Some q0 ->
        Db.cart (remove uid line db).1 !! (uid, pid) = None
        /\ forall k, k <> (uid, pid) ->
             Db.cart (remove uid line db).1 !! k = Db.cart db !! k)
  /\ ((forall pid, line <> Some (uid, pid)) -> (remove uid line db).1 = db).
Proof.
  split; [reflexivity|]. split; [reflexivity|]. split.
  - intros pid q0 -> Hl. unfold remove, delete_line, resolve. simpl.
    rewrite Hl. rewrite decide_True by reflexivity. simpl. split.
    + apply lookup_delete_eq.
    + intros k Hk. now apply lookup_delete_ne.
  - intros Hforeign. unfold remove, delete_line, resolve. simpl.
    destruct line as [[owner pid]|]; [|reflexivity].
    destruct (Db.cart db !! (owner, pid)); [|reflexivity].
    destruct (decide (owner = uid)) as [->|]; [|reflexivity].
    now destruct (Hforeign pid).
Qed.

(** X24: after [DELETE /clear] the caller's cart reads empty, one
    [DeleteCart] statement has been issued, and a checkout by the same user
    is refused with "Cart is empty" before anything is written. *)
Theorem clear_then_checkout
    (gateway : Orders.Gateway) (new_id : string) (now : N) (uid : string)
    (body : Orders.CreateBody) (db : Db.t) :
  truthy (get (Orders.state body)) = true ->
  truthy (get (Orders.city body)) = true ->
  truthy (get (Orders.address body)) = true ->
  truthy (get (Orders.email body)) = true ->
  Delivery.validateNigerianState (get (Orders.state body)) = true ->
  let db1 := (clear uid db).1 in
  Db.cart_of uid db1 = []
  /\ Db.journal db1 = (Db.journal db ++ [Db.DeleteCart uid])%list
  /\ Orders.create gateway new_id now uid body db1 = (db1, Http.Error 400 "Cart is empty").
Proof.
  intros Hs Hc Ha He Hv db1.
  assert (Hempty : Db.cart_of uid db1 = []).
  { apply elem_of_nil_inv. intros [pid q] Hin. apply cart_of_spec in Hin.
    subst db1. change (clear uid db).1 with (Db.delete_cart uid db) in Hin.
    rewrite ReconciliationProps.delete_cart_lookup in Hin. discriminate. }
  split; [exact Hempty|]. split; [reflexivity|].
  unfold Orders.create. rewrite Hs, Hc, Ha, He, Hv. simpl. now rewrite Hempty.
Qed.

(** X25: [GET /] lists exactly the caller's lines, each with the product
    row it refers to. *)
Theorem read_lists_own_lines
    (uid pid : string) (q : Z) (product : option Db.Product) (db : Db.t) :
  (pid, q, product) ∈ read uid db
  <-> Db.cart db !! (uid, pid) = Some q /\ product = Db.products db !! pid.
Proof.
  unfold read. rewrite list_elem_of_fmap. split.
  - intros ([pid' q'] & E & Hin). simpl in E. injection E as -> -> ->.
    apply cart_of_spec in Hin. tauto.
  - intros [Hl ->]. exists (pid, q). split; [reflexivity|]. now apply cart_of_spec.
Qed.

End CartLineProps.


(** ** Status query *)

Module QueryProps.
Import JsString Http Paystack OrderQueries DbFacts.

(** X26: an answer of [GET /status/:reference] always describes an order
    that is in the table, belongs to the caller and carries the reference
    asked for; [is_paid] is set exactly when that order's payment status is
    success. *)
Theorem status_describes_own_order
    (uid reference_ : string) (db : Db.t) (v : StatusView) :
  status uid reference_ db = Some v ->
  exists o, Db.orders db !! order_id v = Some o
            /\ Db.user_id o = uid
            /\ Db.payment_reference o = Some reference_
            /\ payment_status v = Db.payment_status o
            /\ order_status v = Db.order_status o
            /\ total v = Db.total o
            /\ (is_paid v = true <-> Db.payment_status o = Db.PsSuccess).
Proof.
  unfold status.
  destruct (Db.order_by_reference reference_ uid db) as [[id o]|] eqn:Hl; [|discriminate].
  intros [= <-]. simpl. apply order_by_reference_sound in Hl.
  destruct Hl as (Hl & Hr & Hu). exists o. repeat split; try assumption.
  - now intros H%bool_decide_eq_true.
  - intros H. now apply bool_decide_eq_true.
Qed.

(** X27: once a manual verification has answered with an order id, the
    status query for the same reference by the same user reports that
    order as paid. *)
Theorem status_after_verify
    (gateway_verify : string -> VerifyResult) (uid reference_ : string)
    (db : Db.t) (message id : string) (already : bool) :
  (verify gateway_verify uid (Some reference_) db).2 = Verified message id already ->
  exists v, status uid reference_ (verify gateway_verify uid (Some reference_) db).1
            = Some v
            /\ order_id v = id /\ is_paid v = true
            /\ payment_status v = Db.PsSuccess.
Proof.
  unfold verify. simpl get.
  destruct (negb (truthy reference_)); [discriminate|].
  destruct (gateway_verify reference_) as [st g| |]; try discriminate.
  destruct (String.eqb st "success"); [|discriminate].
  destruct (Db.order_by_reference reference_ uid db) as [[id' o]|] eqn:Hl; [|discriminate].
  destruct (decide (Db.payment_status o = Db.PsSuccess)) as [Hs|Hs].
  - intros [= _ <- _]. simpl. unfold status. rewrite Hl. eexists. split; [reflexivity|].
    cbn. rewrite Hs. repeat split.
  - intros [= _ <- _]. simpl fst. unfold status.
    rewrite (VerifyProps.order_by_reference_after_update _ _ _ _ _ Hl).
    eexists. split; [reflexivity|]. simpl. repeat split.
Qed.

End QueryProps.

(** ** Admin routes *)

Module AdminProps.
Import JsString Admin DbFacts.
Local Open Scope Q_scope.

Lemma valid_status_text (s : string) (st : Db.OrderStatus) :
  includes validStatuses s = true -> status_of_text s = Some st ->
  st = Db.OsPending \/ st = Db.OsShipped \/ st = Db.OsDelivered \/ st = Db.OsCancelled.
Proof.
  intros Hin%JsStringFacts.includes_In. simpl in Hin.
  destruct Hin as [<-|[<-|[<-|[<-|[]]]]]; simpl; intros [= <-]; tauto.
Qed.

(** X28: the admin status route writes nothing for a caller who is not an
    admin.  For an admin it never touches stock, carts or the payment
    status, owner, lines and total of any order; the one order it changes
    ends in pending, shipped, delivered or cancelled, so it cannot put an
    order into processing or payment_failed, and it can move a paid order
    to cancelled while leaving it paid. *)
Theorem set_status_keeps_payment
    (user : option User) (id : string) (order_status : string) (db : Db.t) :
  let db' := (set_status user id order_status db).1 in
  ((forall u, user = Some u -> is_admin u = false) -> db' = db)
  /\ Db.products db' = Db.products db
  /\ Db.cart db' = Db.cart db
  /\ (forall id' o, Db.orders db !! id' = Some o ->
       exists o', Db.orders db' !! id' = Some o'
                  /\ Db.user_id o' = Db.user_id o
                  /\ Db.order_items o' = Db.order_items o
                  /\ Db.total o' = Db.total o
                  /\ Db.payment_status o' = Db.payment_status o
                  /\ Db.payment_reference o' = Db.payment_reference o
                  /\ (o' = o
                      \/ (id' = id
                          /\ (Db.order_status o' = Db.OsPending
                              \/ Db.order_status o' = Db.OsShipped
                              \/ Db.order_status o' = Db.OsDelivered
                              \/ Db.order_status o' = Db.OsCancelled))))
  /\ (forall u o, user = Some u -> is_admin u = true ->
        includes validStatuses order_status = true ->
        Db.orders db !! id = Some o ->
        exists o', Db.orders db' !! id = Some o'
                   /\ (set_status user id order_status db).2 = StatusUpdated id o'
                   /\ Db.payment_status o' = Db.payment_status o
                   /\ (order_status = "pending" -> Db.order_status o' = Db.OsPending)
                   /\ (order_status = "shipped" -> Db.order_status o' = Db.OsShipped)
                   /\ (order_status = "delivered"
                       -> Db.order_status o' = Db.OsDelivered)
                   /\ (order_status = "cancelled"
                       -> Db.order_status o' = Db.OsCancelled)).
Proof.
  intros db'. subst db'.
  assert (Heffect : forall u o, user = Some u -> is_admin u = true ->
            includes validStatuses order_status = true ->
            Db.orders db !! id = Some o ->
            exists o', Db.orders (set_status user id order_status db).1 !! id = Some o'
                       /\ (set_status user id order_status db).2 = StatusUpdated id o'
                       /\ Db.payment_status o' = Db.payment_status o
                       /\ (order_status = "pending"
                           -> Db.order_status o' = Db.OsPending)
                       /\ (order_status = "shipped"
                           -> Db.order_status o' = Db.OsShipped)
                       /\ (order_status = "delivered"
                           -> Db.order_status o' = Db.OsDelivered)
                       /\ (order_status = "cancelled"
                           -> Db.order_status o' = Db.OsCancelled)).
  { intros u o -> Hadmin Hvalid Hl.
    assert (Hup : forall st,
              Db.orders (Db.update_order id (Orders.set_order_status st) db) !! id
              = Some (Orders.set_order_status st o)).
    { intros st. unfold Db.update_order, Db.log. cbn [Db.orders].
      rewrite lookup_alter_eq, Hl. reflexivity. }
    assert (Hst : exists st, status_of_text order_status = Some st
                  /\ (order_status = "pending" -> st = Db.OsPending)
                  /\ (order_status = "shipped" -> st = Db.OsShipped)
                  /\ (order_status = "delivered" -> st = Db.OsDelivered)
                  /\ (order_status = "cancelled" -> st = Db.OsCancelled)).
    { pose proof Hvalid as Hin. apply JsStringFacts.includes_In in Hin.
      simpl in Hin.
      destruct Hin as [<-|[<-|[<-|[<-|[]]]]];
        (eexists; split; [reflexivity|]);
        repeat split; (reflexivity || (intros H; discriminate H)). }
    destruct Hst as (st & Htext & Hcases).
    unfold set_status, requireAdmin. rewrite Hadmin, Hvalid. simpl negb. cbv iota.
    rewrite Htext. cbv zeta. rewrite Hup. cbn [fst snd].
    exists (Orders.set_order_status st o).
    split; [exact (Hup st)|]. split; [reflexivity|]. split; [reflexivity|].
    change (Db.order_status (Orders.set_order_status st o)) with st.
    exact Hcases. }
  cut (((forall u, user = Some u -> is_admin u = false) ->
        (set_status user id order_status db).1 = db)
       /\ Db.products (set_status user id order_status db).1 = Db.products db
       /\ Db.cart (set_status user id order_status db).1 = Db.cart db
       /\ (forall id' o, Db.orders db !! id' = Some o ->
             exists o', Db.orders (set_status user id order_status db).1 !! id' = Some o'
                        /\ Db.user_id o' = Db.user_id o
                        /\ Db.order_items o' = Db.order_items o
                        /\ Db.total o' = Db.total o
                        /\ Db.payment_status o' = Db.payment_status o
                        /\ Db.payment_reference o' = Db.payment_reference o
                        /\ (o' = o
                            \/ (id' = id
                                /\ (Db.order_status o' = Db.OsPending
                                    \/ Db.order_status o' = Db.OsShipped
                                    \/ Db.order_status o' = Db.OsDelivered
                                    \/ Db.order_status o' = Db.OsCancelled))))).
  { intros (H1 & H2 & H3 & H4). repeat split; assumption. }
  clear Heffect.
  assert (Hsame : forall id' o, Db.orders db !! id' = Some o ->
            exists o', Db.orders db !! id' = Some o'
                       /\ Db.user_id o' = Db.user_id o
                       /\ Db.order_items o' = Db.order_items o
                       /\ Db.total o' = Db.total o
                       /\ Db.payment_status o' = Db.payment_status o
                       /\ Db.payment_reference o' = Db.payment_reference o
                       /\ (o' = o
                           \/ (id' = id
                               /\ (Db.order_status o' = Db.OsPending
                                   \/ Db.order_status o' = Db.OsShipped
                                   \/ Db.order_status o' = Db.OsDelivered
                                   \/ Db.order_status o' = Db.OsCancelled)))).
  { intros id' o H. exists o. tauto. }
  unfold set_status, requireAdmin.
  destruct user as [u|]; [|simpl; tauto].
  destruct (is_admin u) eqn:Hadmin; [|simpl; tauto].
  split.
  { intros H. specialize (H u eq_refl). congruence. }
  destruct (includes validStatuses order_status) eqn:Hvalid; [|simpl; tauto].
  simpl negb. cbv iota.
  destruct (status_of_text order_status) as [st|] eqn:Htext; [|simpl; tauto].
  pose proof (valid_status_text _ _ Hvalid Htext) as Hst.
  destruct (Db.orders (Db.update_order id (Orders.set_order_status st) db) !! id)
    as [order|]; simpl fst; (split; [reflexivity|]; split; [reflexivity|]);
    intros id' o Hl; simpl;
    (destruct (decide (id' = id)) as [->|Hne];
     [rewrite lookup_alter_eq, Hl; simpl; eexists; split; [reflexivity|];
      simpl; repeat split; right; split; [reflexivity | exact Hst]
     |rewrite lookup_alter_ne by congruence; exists o; tauto]).
Qed.







End AdminProps.


(** ** Page windows *)

Module PaginationProps.
Import Pagination.

Lemma rev_app (d1 d2 : Decimal.uint) :
  Decimal.rev (Decimal.app d1 d2) = Decimal.revapp d2 (Decimal.rev d1).
Proof.
  apply DecimalFacts.to_list_inj.
  rewrite DecimalFacts.rev_spec, DecimalFacts.app_spec, DecimalFacts.revapp_spec,
    DecimalFacts.rev_spec.
  now rewrite List.rev_app_distr, List.rev_append_rev.
Qed.

Lemma usize_nb_digits (d : Decimal.uint) :
  DecimalPos.Unsigned.usize d = N.of_nat (Decimal.nb_digits d).
Proof. induction d; simpl; [reflexivity | rewrite IHd; lia ..]. Qed.

(** Reading back two strings of digits written one after the other. *)
Lemma of_uint_app (d1 d2 : Decimal.uint) :
  N.of_uint (Decimal.app d1 d2)
  = (N.of_uint d1 * 10 ^ N.of_nat (Decimal.nb_digits d2) + N.of_uint d2)%N.
Proof.
  unfold N.of_uint. rewrite !DecimalPos.Unsigned.of_uint_alt, rev_app.
  rewrite DecimalPos.Unsigned.of_lu_revapp, usize_nb_digits. lia.
Qed.

Lemma concat_nonneg (z : Z) (d : Decimal.uint) :
  (0 <= z)%Z ->
  concat z d = (z * 10 ^ Z.of_nat (Decimal.nb_digits d) + toNumber d)%Z.
Proof.
  intros Hz. unfold concat, toNumber.
  assert (E : (0 <=? z)%Z = true) by now apply Z.leb_le.
  rewrite E, of_uint_app, DecimalN.Unsigned.of_to.
  rewrite N2Z.inj_add, N2Z.inj_mul, N2Z.inj_pow, Z2N.id by assumption.
  now rewrite nat_N_Z.
Qed.

(** X30: the page window.  With no [limit] in the query the window of
    page [p] holds exactly the default number of rows.  With a [limit] in
    the query the upper end is computed on the text of the limit: the
    window starts at (p-1)*n and ends at (p-1)*n*10^k + n - 1, where k is
    the number of digits of the limit; that is n rows on page 1, and at
    least 10*n rows from page 2 on. *)
Theorem range_with_limit_from_query
    (defaultLimit : Z) (page limit : Decimal.uint) :
  (1 <= toNumber page < 10000)%Z ->
  (Decimal.nb_digits limit <= 4)%nat ->
  let p := toNumber page in
  let n := toNumber limit in
  let k := Z.of_nat (Decimal.nb_digits limit) in
  range defaultLimit (Some page) None
  = ((p - 1) * defaultLimit, (p - 1) * defaultLimit + defaultLimit - 1)%Z
  /\ range defaultLimit (Some page) (Some limit)
     = ((p - 1) * n, (p - 1) * n * 10 ^ k + n - 1)%Z
  /\ (p = 1%Z -> range defaultLimit (Some page) (Some limit) = (0, n - 1)%Z)
  /\ (2 <= p -> 1 <= n ->
      10 * n <= (range defaultLimit (Some page) (Some limit)).2
                - (range defaultLimit (Some page) (Some limit)).1 + 1)%Z.
Proof.
  intros Hp Hk p n k.
  assert (Hn : (0 <= n)%Z) by (unfold n, toNumber; lia).
  assert (E : range defaultLimit (Some page) (Some limit)
              = ((p - 1) * n, (p - 1) * n * 10 ^ k + n - 1)%Z).
  { unfold range. fold p n. rewrite concat_nonneg by nia. reflexivity. }
  split; [reflexivity|]. split; [exact E|]. split.
  - intros H1. rewrite E, H1. f_equal; lia.
  - intros H2 H1. rewrite E. simpl fst. simpl snd.
    assert (Hpow : (10 <= 10 ^ k)%Z).
    { assert (Hk1 : (1 <= k)%Z).
      { unfold k. destruct limit; simpl in *; try lia.
        unfold n, toNumber in H1. simpl in H1. lia. }
      change 10%Z with (10 ^ 1)%Z at 1. apply Z.pow_le_mono_r; lia. }
    nia.
Qed.

End PaginationProps.


(** ** Worked instances *)

Module Instances.
Import JsString Http Fixtures.

(** A failed-charge event for the order the webhook has just settled: the
    paid order ends failed and cancelled. *)
Lemma charge_failed_overwrites_witness :
  Db.payment_status <$> Db.orders paid_shop !! "o1" = Some Db.PsSuccess
  /\ Db.payment_status
       <$> Db.orders (Paystack.handleEvent failed_event paid_shop).1 !! "o1"
     = Some Db.PsFailed
  /\ Db.order_status
       <$> Db.orders (Paystack.handleEvent failed_event paid_shop).1 !! "o1"
     = Some Db.OsCancelled.
Proof.
  destruct (WebhookProps.charge_failed_overwrites failed_event paid_shop
              paid_order1 Sample.ref1)
    as (_ & (o' & Hl & Hp & Hs & _) & _); try (vm_compute; reflexivity).
  change (Paystack.meta_order_id failed_event) with "o1" in Hl.
  split; [vm_compute; reflexivity|].
  rewrite Hl. simpl. rewrite Hp, Hs. split; reflexivity.
Defined.

(** The manager cancels the order the webhook has settled: it ends
    cancelled and still paid. *)
Lemma set_status_keeps_payment_witness :
  Db.order_status <$> Db.orders paid_shop !! "o1" = Some Db.OsProcessing
  /\ Db.order_status
       <$> Db.orders (Admin.set_status (Some manager) "o1" "cancelled" paid_shop).1
           !! "o1"
     = Some Db.OsCancelled
  /\ Db.payment_status
       <$> Db.orders (Admin.set_status (Some manager) "o1" "cancelled" paid_shop).1
           !! "o1"
     = Some Db.PsSuccess.
Proof.
  destruct (proj2 (proj2 (proj2 (proj2
              (AdminProps.set_status_keeps_payment (Some manager) "o1" "cancelled"
                 paid_shop)))) manager paid_order1 eq_refl eq_refl eq_refl)
    as (o' & Hl & _ & Hp & _ & _ & _ & Hc); [vm_compute; reflexivity|].
  split; [vm_compute; reflexivity|].
  rewrite Hl. simpl. rewrite Hp, (Hc eq_refl). split; reflexivity.
Defined.

Lemma verify_after_webhook_writes_nothing_witness :
  (Paystack.verify Sample.gateway_ok "u1" (Some Sample.ref1) paid_shop).1 = paid_shop.
Proof.
  refine (proj1 (WebhookProps.verify_after_webhook_writes_nothing Sample.gateway_ok
                   (Sample.success_event 2000000) Sample.shop "o1" "u1" Sample.ref1
                   Sample.order1 _ _ _ _ _ _ _ _)); try reflexivity.
  intros id' o' H Hne. simpl in H. apply lookup_singleton_Some in H. destruct H.
  congruence.
Defined.

Lemma created_order_lines_are_snapshots_witness :
  Forall2 (Invariants.snapshot_of (Db.products Sample.shop_before_checkout))
          (Db.cart_of "u1" Sample.shop_before_checkout)
          (Db.order_items (created_order Sample.body1)).
Proof.
  refine (CheckoutProps.created_order_lines_are_snapshots Sample.gateway_up "o9"
            1700000000000 "u1" Sample.body1 Sample.shop_before_checkout
            (created_order Sample.body1) _ _);
    vm_compute; reflexivity.
Defined.

(** Eleven units asked for, ten in stock: no order. *)
Lemma create_refuses_oversized_line_witness :
  (Orders.create Sample.gateway_up "o9" 1700000000000 "u1" Sample.body1 greedy_shop).1
  = greedy_shop.
Proof.
  refine (CheckoutProps.create_refuses_oversized_line Sample.gateway_up "o9"
            1700000000000 "u1" Sample.body1 greedy_shop "p1" 11 Sample.vitamin _ _ _);
    vm_compute; reflexivity.
Defined.


(** A retry for the order the webhook has already settled. *)
Lemma retry_refused_for_paid_or_foreign_order_witness :
  (Orders.retry_payment Sample.gateway_up 1700000000500 "u1" "o1"
                        (Some "ada@example.com") paid_shop).1 = paid_shop.
Proof.
  refine (proj1 (RetryProps.retry_refused_for_paid_or_foreign_order Sample.gateway_up
                   1700000000500 "u1" "o1" (Some "ada@example.com") paid_shop _)).
  intros o H. vm_compute in H. injection H as <-. right. reflexivity.
Defined.

Lemma checkout_then_verify_witness :
  (Paystack.verify Sample.gateway_ok "u1" (Some "order_o9_1700000000000")
     (Orders.create Sample.gateway_up "o9" 1700000000000 "u1" Sample.body1
                    Sample.shop_before_checkout).1).2
  = Verified "Payment verified successfully" "o9" false.
Proof.
  refine (proj1 (FlowProps.checkout_then_verify Sample.gateway_up Sample.gateway_ok
                   "o9" 1700000000000 "u1" Sample.body1 Sample.shop_before_checkout
                   ("p1", 2%Z) [] [Sample.line] answer9 "Approved"
                   _ _ _ _ _ _ _ _ _ _ _ _)); try (vm_compute; reflexivity).
  intros id' o' H. simpl in H. rewrite lookup_empty in H. discriminate.
Defined.

Lemma add_then_read_witness :
  ("p1", 3%Z) ∈ Db.cart_of "u1" (Cart.add "u1" (Some "p1") (Some 3%Z) Sample.shop).1.
Proof.
  refine (proj2 (proj1 (CartAddProps.add_then_read "u1" "p1" (Some 3%Z) Sample.shop
                          Sample.vitamin _ _ _) 3%Z) eq_refl).
  - reflexivity.
  - vm_compute. reflexivity.
  - vm_compute. discriminate.
Defined.

Lemma add_accepts_nonpositive_quantity_witness :
  Db.cart (Cart.add "u1" (Some "p1") (Some (-5)%Z) Sample.shop).1 !! ("u1", "p1")
  = Some (-5)%Z.
Proof.
  refine (proj2 (CartAddProps.add_accepts_nonpositive_quantity "u1" "p1" (-5)
                   Sample.shop Sample.vitamin _ _ _ _)).
  - reflexivity.
  - vm_compute. reflexivity.
  - vm_compute. discriminate.
  - vm_compute. discriminate.
Defined.

Lemma update_own_line_witness :
  Db.cart (CartLines.update "u1" (Some ("u1", "p1")) 7 Sample.shop).1 !! ("u1", "p1")
  = Some 7%Z.
Proof.
  refine (proj1 (proj2 (proj1 (CartLineProps.update_own_line "u1" "p1" 7 2 Sample.shop
                                 Sample.vitamin _ _ _) _))).
  - vm_compute. reflexivity.
  - vm_compute. reflexivity.
  - vm_compute. reflexivity.
  - vm_compute. discriminate.
Defined.

Lemma clear_then_checkout_witness :
  Orders.create Sample.gateway_up "o9" 1700000000000 "u1" Sample.body1
                (CartLines.clear "u1" Sample.shop).1
  = ((CartLines.clear "u1" Sample.shop).1, Error 400 "Cart is empty").
Proof.
  refine (proj2 (proj2 (CartLineProps.clear_then_checkout Sample.gateway_up "o9"
                          1700000000000 "u1" Sample.body1 Sample.shop _ _ _ _ _)));
    reflexivity.
Defined.

Lemma status_describes_own_order_witness :
  exists o, Db.orders Sample.shop !! "o1" = Some o /\ Db.user_id o = "u1".
Proof.
  destruct (QueryProps.status_describes_own_order "u1" Sample.ref1 Sample.shop
              pending_view) as (o & Hl & Hu & _).
  - vm_compute. reflexivity.
  - exists o. split; [exact Hl | exact Hu].
Defined.

Lemma status_after_verify_witness :
  exists v, OrderQueries.status "u1" Sample.ref1 (Sample.check Sample.shop).1 = Some v
            /\ OrderQueries.is_paid v = true.
Proof.
  destruct (QueryProps.status_after_verify Sample.gateway_ok "u1" Sample.ref1
              Sample.shop "Payment verified successfully" "o1" false)
    as (v & Hv & _ & Hpaid & _).
  - vm_compute. reflexivity.
  - exists v. split; [exact Hv | exact Hpaid].
Defined.


(** [?page=2&limit=10] asks for rows 10 to 1009. *)
Lemma range_with_limit_from_query_witness :
  Pagination.range 10 (Some (Decimal.D2 Decimal.Nil))
                   (Some (Decimal.D1 (Decimal.D0 Decimal.Nil)))
  = (10, 1009)%Z.
Proof.
  refine (proj1 (proj2 (PaginationProps.range_with_limit_from_query 10
                          (Decimal.D2 Decimal.Nil)
                          (Decimal.D1 (Decimal.D0 Decimal.Nil)) _ _))).
  - vm_compute. split; [discriminate | reflexivity].
  - vm_compute. lia.
Defined.

End Instances.
